(** * demux-js: AbstractActionReader and AbstractActionHandler

    A shallow embedding of [src/dist/AbstractActionReader.js] and
    [src/src/AbstractActionHandler.ts] (compiled form in
    [src/unnamed/part_000]).

    Both classes are asynchronous and mutate [this]; every method is
    modelled in a small state-and-error monad over an explicit world.  A
    thrown JavaScript [Error] is an [Err] result that carries the world as
    it was when the exception left the method, since mutations performed
    before a [throw] stay visible on the object.  The abstract methods
    implemented by subclasses (the chain source of the reader, the
    persistence binder and the updaters/effects of the handler) are
    parameters of the model. *)

From Stdlib Require Import ZArith Lia Bool.
From stdpp Require Import base list gmap strings.

Open Scope Z_scope.

(** ** A state-and-error monad *)

(** Errors the code throws or raises at run time. *)
Inductive js_error :=
  | TypeError                (* property read on [undefined] *)
  | SeekBeforeStart          (* 'Cannot seek to block before configured startAtBlock.' *)
  | CurrentBlockDataNull     (* 'currentBlockData must not be null.' *)
  | ForkWithoutCurrentBlock  (* '`currentBlockData` must not be null when initiating fork resolution.' *)
  | HistoryExhausted         (* 'Fork resolution history has been exhausted, ...' *)
  | BlockHashMismatch        (* 'Block hashes do not match; block not part of current chain.' *)
  | NoHandlerVersions        (* 'Must have at least one handler version.' *)
  | DuplicateVersion.        (* 'Handler version name ... already exists. ...' *)

Inductive result (A : Type) :=
  | Ok (a : A)
  | Err (e : js_error).
Arguments Ok {A} a.
Arguments Err {A} e.

(** A computation over a world [W]: the world is returned on success and on
    failure alike. *)
Definition SM (W A : Type) : Type := W -> result A * W.

Definition sm_ret {W A} (a : A) : SM W A := fun w => (Ok a, w).

Definition sm_bind {W A B} (m : SM W A) (k : A -> SM W B) : SM W B :=
  fun w => match m w with
           | (Ok a, w') => k a w'
           | (Err e, w') => (Err e, w')
           end.

Definition sm_throw {W A} (e : js_error) : SM W A := fun w => (Err e, w).
Definition sm_get {W} : SM W W := fun w => (Ok w, w).
Definition sm_modify {W} (f : W -> W) : SM W unit := fun w => (Ok tt, f w).

Notation "x <- m ;; k" := (sm_bind m (fun x => k))
  (at level 100, m at next level, right associativity).
Notation "m ;;; k" := (sm_bind m (fun _ => k))
  (at level 100, right associativity).

(** ** Data model ([src/interfaces], as used by both classes) *)

Record BlockInfo := mkBlockInfo {
  blockNumber : Z;
  blockHash : string;
  previousBlockHash : string
}.

Record Action := mkAction {
  type : string;
  payload : string
}.

Record Block := mkBlock {
  blockInfo : BlockInfo;
  actions : list Action
}.

(** ** JavaScript array operations used by the code *)

(** [a.splice(0, n)]: removes the first [n] elements; a negative count
    removes nothing, a count beyond the length removes everything. *)
Definition splice_front {A} (l : list A) (n : Z) : list A :=
  drop (Z.to_nat n) l.

(** [a.splice(k)] with [k >= 0]: keeps the first [k] elements. *)
Definition splice_from {A} (l : list A) (k : Z) : list A :=
  take (Z.to_nat k) l.

(** [a.pop()]: the last element (or [undefined]) and the shortened array. *)
Definition pop {A} (l : list A) : option A * list A :=
  (last l, removelast l).

(** ** The reader ([src/dist/AbstractActionReader.js]) *)

Module Reader.

(** The fields of an [AbstractActionReader] instance. *)
Record ReaderState := mkReaderState {
  startAtBlock : Z;
  onlyIrreversible : bool;
  maxHistoryLength : Z;
  headBlockNumber : Z;
  isFirstBlock : bool;
  currentBlockData : option Block;
  blockHistory : list Block;
  tmpBlocks : list Block;
  index : Z;
  currentBlockNumber : Z
}.

(** [constructor(startAtBlock = 1, onlyIrreversible = false, maxHistoryLength = 600)] *)
Definition constructor (startAtBlock : Z) (onlyIrreversible : bool)
    (maxHistoryLength : Z) : ReaderState := {|
  startAtBlock := startAtBlock;
  onlyIrreversible := onlyIrreversible;
  maxHistoryLength := maxHistoryLength;
  headBlockNumber := 0;
  isFirstBlock := true;
  currentBlockData := None;
  blockHistory := [];
  tmpBlocks := [];
  index := 0;
  currentBlockNumber := startAtBlock - 1
|}.

(** Calls to the abstract methods, in the order they are issued. *)
Inductive ReaderCall :=
  | CallGetHeadBlockNumber
  | CallGetBlock (n : Z).

(** The abstract methods [getHeadBlockNumber] and [getBlock].  A chain
    source may answer differently over time (the head moves, a fork
    replaces blocks), so each answer may depend on how many calls were
    issued before it. *)
Record ChainSource := mkChainSource {
  getHeadBlockNumber_at : nat -> Z;
  getBlock_at : nat -> Z -> Block
}.

Record World := mkWorld {
  rs : ReaderState;
  calls : list ReaderCall
}.

Abbreviation RM := (SM World).

(** Field assignments [this.f = v]. *)
Definition set_startAtBlock v s := {| startAtBlock := v; onlyIrreversible := onlyIrreversible s; maxHistoryLength := maxHistoryLength s; headBlockNumber := headBlockNumber s; isFirstBlock := isFirstBlock s; currentBlockData := currentBlockData s; blockHistory := blockHistory s; tmpBlocks := tmpBlocks s; index := index s; currentBlockNumber := currentBlockNumber s |}.
Definition set_headBlockNumber v s := {| startAtBlock := startAtBlock s; onlyIrreversible := onlyIrreversible s; maxHistoryLength := maxHistoryLength s; headBlockNumber := v; isFirstBlock := isFirstBlock s; currentBlockData := currentBlockData s; blockHistory := blockHistory s; tmpBlocks := tmpBlocks s; index := index s; currentBlockNumber := currentBlockNumber s |}.
Definition set_isFirstBlock v s := {| startAtBlock := startAtBlock s; onlyIrreversible := onlyIrreversible s; maxHistoryLength := maxHistoryLength s; headBlockNumber := headBlockNumber s; isFirstBlock := v; currentBlockData := currentBlockData s; blockHistory := blockHistory s; tmpBlocks := tmpBlocks s; index := index s; currentBlockNumber := currentBlockNumber s |}.
Definition set_currentBlockData v s := {| startAtBlock := startAtBlock s; onlyIrreversible := onlyIrreversible s; maxHistoryLength := maxHistoryLength s; headBlockNumber := headBlockNumber s; isFirstBlock := isFirstBlock s; currentBlockData := v; blockHistory := blockHistory s; tmpBlocks := tmpBlocks s; index := index s; currentBlockNumber := currentBlockNumber s |}.
Definition set_blockHistory v s := {| startAtBlock := startAtBlock s; onlyIrreversible := onlyIrreversible s; maxHistoryLength := maxHistoryLength s; headBlockNumber := headBlockNumber s; isFirstBlock := isFirstBlock s; currentBlockData := currentBlockData s; blockHistory := v; tmpBlocks := tmpBlocks s; index := index s; currentBlockNumber := currentBlockNumber s |}.
Definition set_tmpBlocks v s := {| startAtBlock := startAtBlock s; onlyIrreversible := onlyIrreversible s; maxHistoryLength := maxHistoryLength s; headBlockNumber := headBlockNumber s; isFirstBlock := isFirstBlock s; currentBlockData := currentBlockData s; blockHistory := blockHistory s; tmpBlocks := v; index := index s; currentBlockNumber := currentBlockNumber s |}.
Definition set_index v s := {| startAtBlock := startAtBlock s; onlyIrreversible := onlyIrreversible s; maxHistoryLength := maxHistoryLength s; headBlockNumber := headBlockNumber s; isFirstBlock := isFirstBlock s; currentBlockData := currentBlockData s; blockHistory := blockHistory s; tmpBlocks := tmpBlocks s; index := v; currentBlockNumber := currentBlockNumber s |}.
Definition set_currentBlockNumber v s := {| startAtBlock := startAtBlock s; onlyIrreversible := onlyIrreversible s; maxHistoryLength := maxHistoryLength s; headBlockNumber := headBlockNumber s; isFirstBlock := isFirstBlock s; currentBlockData := currentBlockData s; blockHistory := blockHistory s; tmpBlocks := tmpBlocks s; index := index s; currentBlockNumber := v |}.

Definition get : RM ReaderState := fun w => (Ok (rs w), w).
Definition put (f : ReaderState -> ReaderState) : RM unit :=
  fun w => (Ok tt, {| rs := f (rs w); calls := calls w |}).

Section WithSource.
Variable src : ChainSource.

(** [await this.getHeadBlockNumber()] *)
Definition getHeadBlockNumber : RM Z := fun w =>
  (Ok (getHeadBlockNumber_at src (length (calls w))),
   {| rs := rs w; calls := calls w ++ [CallGetHeadBlockNumber] |}).

(** [await this.getBlock(n)] *)
Definition getBlock (n : Z) : RM Block := fun w =>
  (Ok (getBlock_at src (length (calls w)) n),
   {| rs := rs w; calls := calls w ++ [CallGetBlock n] |}).

(** [for (let i = start; <count iterations>; i++) task.push(this.getBlock(i));
     await Promise.all(task)]: the requests are issued in loop order and
    [Promise.all] yields the answers in that same order. *)
Fixpoint fetch_blocks (i : Z) (count : nat) : RM (list Block) :=
  match count with
  | O => sm_ret []
  | S count' =>
      b <- getBlock i ;;
      bs <- fetch_blocks (i + 1) count' ;;
      sm_ret (b :: bs)
  end.

(** *** [nextBlock], step by step *)

(** Lines 52-57: refresh the head when on the head block or when it is
    unknown ([!this.headBlockNumber]). *)
Definition head_refresh : RM unit :=
  s <- get ;;
  if (currentBlockNumber s =? headBlockNumber s) || (headBlockNumber s =? 0) then
    h <- getHeadBlockNumber ;;
    put (fun s => set_index 0 (set_tmpBlocks [] (set_headBlockNumber h s)))
  else sm_ret tt.

(** Lines 58-63: a negative block number wraps to the end of the chain. *)
Definition tail_resolution : RM unit :=
  s <- get ;;
  if (currentBlockNumber s <? 0) && (length (blockHistory s) =? 0)%nat then
    put (fun s => set_currentBlockNumber (headBlockNumber s + currentBlockNumber s) s) ;;;
    put (fun s => set_startAtBlock (currentBlockNumber s + 1) s)
  else sm_ret tt.

(** Lines 66-73: when the prefetch buffer is empty, fill it.  The loop
    initialiser [let i = (this.currentBlockNumber = 0)] assigns 0 to
    [currentBlockNumber] and starts [i] at 0; the loop runs while
    [i < this.headBlockNumber]. *)
Definition prefetch : RM unit :=
  s <- get ;;
  if (length (tmpBlocks s) =? 0)%nat then
    put (set_currentBlockNumber 0) ;;;
    s <- get ;;
    result <- fetch_blocks 0 (Z.to_nat (headBlockNumber s)) ;;
    put (set_tmpBlocks result)
  else sm_ret tt.

(** Lines 196-199: the default [historyExhausted] throws. *)
Definition historyExhausted : RM unit := sm_throw HistoryExhausted.

(** Lines 165-185: the walk back through [blockHistory].  Every iteration
    that does not [break] pops one entry, so [length blockHistory]
    iterations suffice; [getBlock] returns a [Block], so the
    [this.currentBlockData !== null] test inside the loop always holds. *)
Fixpoint resolve_loop (fuel : nat) : RM unit :=
  match fuel with
  | O => sm_ret tt
  | S fuel' =>
      s <- get ;;
      match last (blockHistory s) with
      | None => sm_ret tt
      | Some previousBlockData =>
          match currentBlockData s with
          | None => sm_throw TypeError
          | Some cur =>
              b <- getBlock (blockNumber (blockInfo cur)) ;;
              put (set_currentBlockData (Some b)) ;;;
              if String.eqb (previousBlockHash (blockInfo b))
                            (blockHash (blockInfo previousBlockData))
              then sm_ret tt
              else
                put (set_currentBlockData (Some previousBlockData)) ;;;
                put (fun s => set_blockHistory (removelast (blockHistory s)) s) ;;;
                resolve_loop fuel'
          end
      end
  end.

(** [resolveFork()], lines 159-191. *)
Definition resolveFork : RM unit :=
  s <- get ;;
  match currentBlockData s with
  | None => sm_throw ForkWithoutCurrentBlock
  | Some _ =>
      resolve_loop (length (blockHistory s)) ;;;
      s <- get ;;
      (if (length (blockHistory s) =? 0)%nat then historyExhausted else sm_ret tt) ;;;
      s <- get ;;
      match last (blockHistory s) with
      | None => sm_throw TypeError
      | Some b => put (set_currentBlockNumber (blockNumber (blockInfo b) + 1))
      end
  end.

(** Lines 64-103: consume the next prefetched block; returns
    [(isRollback, isNewBlock)]. *)
Definition advance : RM (bool * bool) :=
  s <- get ;;
  if currentBlockNumber s <? headBlockNumber s then
    prefetch ;;;
    s <- get ;;
    put (fun s => set_index (index s + 1) s) ;;;
    let expectedHash :=
      match currentBlockData s with
      | Some c => blockHash (blockInfo c)
      | None => "INVALID"%string
      end in
    match nth_error (tmpBlocks s) (Z.to_nat (index s)) with
    | None => sm_throw TypeError
    | Some unvalidatedBlockData =>
        let actualHash := previousBlockHash (blockInfo unvalidatedBlockData) in
        if String.eqb expectedHash actualHash || (length (blockHistory s) =? 0)%nat then
          put (fun s => set_blockHistory
                 (match currentBlockData s with
                  | Some c => blockHistory s ++ [c]
                  | None => blockHistory s
                  end) s) ;;;
          put (fun s => set_blockHistory
                 (splice_front (blockHistory s)
                    (Z.of_nat (length (blockHistory s)) - maxHistoryLength s)) s) ;;;
          put (set_currentBlockData (Some unvalidatedBlockData)) ;;;
          put (set_currentBlockNumber (blockNumber (blockInfo unvalidatedBlockData))) ;;;
          sm_ret (false, true)
        else
          resolveFork ;;;
          h <- getHeadBlockNumber ;;
          put (set_headBlockNumber h) ;;;
          sm_ret (true, true)
    end
  else sm_ret (false, false).

(** [nextBlock()], lines 47-111. *)
Definition nextBlock : RM (Block * bool * bool) :=
  head_refresh ;;;
  tail_resolution ;;;
  flags <- advance ;;
  put (fun s => set_isFirstBlock (currentBlockNumber s =? startAtBlock s) s) ;;;
  s <- get ;;
  match currentBlockData s with
  | None => sm_throw CurrentBlockDataNull
  | Some b => sm_ret (b, fst flags, snd flags)
  end.

(** Lines 134-142: [toDelete] after scanning [blockHistory] from the newest
    entry; the list is given newest first. *)
Fixpoint scan_history (newest_first : list Block) (blockNumber_ : Z) (toDelete : Z) : Z :=
  match newest_first with
  | [] => toDelete
  | b :: rest =>
      if blockNumber (blockInfo b) =? blockNumber_ then toDelete
      else scan_history rest blockNumber_ (toDelete + 1)
  end.

(** [seekToBlock(blockNumber)], lines 119-153. *)
Definition seekToBlock (blockNumber_ : Z) : RM unit :=
  put (set_currentBlockData None) ;;;
  put (set_headBlockNumber 0) ;;;
  s <- get ;;
  if blockNumber_ <? startAtBlock s then sm_throw SeekBeforeStart
  else if blockNumber_ =? 1 then
    put (set_blockHistory []) ;;;
    put (set_currentBlockNumber 0)
  else
    let toDelete := scan_history (rev (blockHistory s)) blockNumber_ (-1) in
    (if toDelete >=? 0 then
       put (fun s => set_blockHistory (splice_from (blockHistory s) toDelete) s) ;;;
       s <- get ;;
       match pop (blockHistory s) with
       | (popped, rest) => put (fun s => set_currentBlockData popped (set_blockHistory rest s))
       end
     else sm_ret tt) ;;;
    put (set_currentBlockNumber (blockNumber_ - 1)) ;;;
    s <- get ;;
    match currentBlockData s with
    | Some _ => sm_ret tt
    | None =>
        b <- getBlock (currentBlockNumber s) ;;
        put (set_currentBlockData (Some b))
    end.

End WithSource.

(** The history bound of the spec, and the relation "the history did not
    grow and the bound did not change" between two reader states. *)
Definition history_bounded (s : ReaderState) : Prop :=
  Z.of_nat (length (blockHistory s)) <= maxHistoryLength s.

Definition history_not_grown (s s' : ReaderState) : Prop :=
  (length (blockHistory s') <= length (blockHistory s))%nat
  /\ maxHistoryLength s' = maxHistoryLength s.

End Reader.

(** ** The handler ([src/src/AbstractActionHandler.ts]) *)

Module Handler.

(** An [Updater] over a persistence state of type [St]: [apply(state,
    payload, blockInfo, context)] may change the state and may return the
    name of a handler version to switch to.  The [context] object is part
    of [St]. *)
Module Updater.
Record t (St : Type) := mk {
  actionType : string;
  apply : St -> string -> BlockInfo -> St * option string
}.
Arguments mk {St}.
Arguments actionType {St}.
Arguments apply {St}.
End Updater.

(** An [Effect]: its [run(payload, block, context)] is observed as an event
    of the log. *)
Module Effect.
Record t := mk {
  actionType : string
}.
End Effect.

Record HandlerVersion (St : Type) := mkHandlerVersion {
  versionName : string;
  updaters : list (Updater.t St);
  effects : list Effect.t
}.
Arguments mkHandlerVersion {St}.
Arguments versionName {St}.
Arguments updaters {St}.
Arguments effects {St}.

Record IndexState := mkIndexState {
  is_blockNumber : Z;
  is_blockHash : string;
  is_handlerVersionName : string
}.

(** The fields of an [AbstractActionHandler] instance. *)
Record HandlerState (St : Type) := mkHandlerState {
  lastProcessedBlockNumber : Z;
  lastProcessedBlockHash : string;
  handlerVersionName : string;
  handlerVersionMap : gmap string (HandlerVersion St)
}.
Arguments mkHandlerState {St}.
Arguments lastProcessedBlockNumber {St}.
Arguments lastProcessedBlockHash {St}.
Arguments handlerVersionName {St}.
Arguments handlerVersionMap {St}.

(** The abstract persistence methods a subclass implements. *)
Record Binder (St : Type) := mkBinder {
  updateIndexState_impl : St -> Block -> bool -> string -> St;
  loadIndexState_impl : St -> IndexState;
  rollbackTo_impl : Z -> St -> St
}.
Arguments mkBinder {St}.
Arguments updateIndexState_impl {St}.
Arguments loadIndexState_impl {St}.
Arguments rollbackTo_impl {St}.

(** Observable calls, in order. *)
Inductive Event :=
  | EvRollbackTo (n : Z)
  | EvLoadIndexState
  | EvUpdateIndexState (blockNumber_ : Z) (isReplay : bool) (versionName_ : string)
  | EvHandleWithState
  | EvUpdaterApply (versionName_ : string) (updaterIndex : Z) (action : Action)
  | EvEffectRun (versionName_ : string) (effectIndex : Z) (action : Action) (blockNumber_ : Z).

Record World (St : Type) := mkWorld {
  hs : HandlerState St;
  store : St;
  events : list Event
}.
Arguments mkWorld {St}.
Arguments hs {St}.
Arguments store {St}.
Arguments events {St}.

(** [initHandlerVersions]: fill the map, refusing duplicate names. *)
Fixpoint insert_versions {St} (m : gmap string (HandlerVersion St))
    (handlerVersions : list (HandlerVersion St)) : option (gmap string (HandlerVersion St)) :=
  match handlerVersions with
  | [] => Some m
  | hv :: rest =>
      match m !! versionName hv with
      | Some _ => None
      | None => insert_versions (<[versionName hv := hv]> m) rest
      end
  end.

(** [constructor(handlerVersions)] with [initHandlerVersions]. *)
Definition constructor {St} (handlerVersions : list (HandlerVersion St))
    : result (HandlerState St) :=
  match handlerVersions with
  | [] => Err NoHandlerVersions
  | hv0 :: _ =>
      match insert_versions ∅ handlerVersions with
      | None => Err DuplicateVersion
      | Some m =>
          let name := match m !! "v1"%string with
                      | Some _ => "v1"%string
                      | None => versionName hv0
                      end in
          Ok {| lastProcessedBlockNumber := 0;
                lastProcessedBlockHash := "";
                handlerVersionName := name;
                handlerVersionMap := m |}
      end
  end.

Section WithBinder.
Context {St : Type}.
Variable binder : Binder St.

Local Abbreviation HM := (SM (World St)).

Definition get : HM (World St) := sm_get.
Definition put (f : World St -> World St) : HM unit := sm_modify f.

Definition set_hs (f : HandlerState St -> HandlerState St) (w : World St) : World St :=
  {| hs := f (hs w); store := store w; events := events w |}.
Definition set_store (st : St) (w : World St) : World St :=
  {| hs := hs w; store := st; events := events w |}.
Definition log (e : Event) (w : World St) : World St :=
  {| hs := hs w; store := store w; events := events w ++ [e] |}.

Definition set_handlerVersionName (v : string) (h : HandlerState St) : HandlerState St :=
  {| lastProcessedBlockNumber := lastProcessedBlockNumber h;
     lastProcessedBlockHash := lastProcessedBlockHash h;
     handlerVersionName := v;
     handlerVersionMap := handlerVersionMap h |}.
Definition set_lastProcessed (n : Z) (hash : string) (h : HandlerState St) : HandlerState St :=
  {| lastProcessedBlockNumber := n;
     lastProcessedBlockHash := hash;
     handlerVersionName := handlerVersionName h;
     handlerVersionMap := handlerVersionMap h |}.

(** [await this.updateIndexState(state, block, isReplay, handlerVersionName, context)] *)
Definition updateIndexState (block : Block) (isReplay : bool) (name : string) : HM unit :=
  put (fun w => log (EvUpdateIndexState (blockNumber (blockInfo block)) isReplay name)
                  (set_store (updateIndexState_impl binder (store w) block isReplay name) w)).

(** [await this.loadIndexState()] *)
Definition loadIndexState : HM IndexState :=
  w <- get ;;
  put (log EvLoadIndexState) ;;;
  sm_ret (loadIndexState_impl binder (store w)).

(** [await this.rollbackTo(blockNumber)] *)
Definition rollbackTo (n : Z) : HM unit :=
  put (fun w => log (EvRollbackTo n) (set_store (rollbackTo_impl binder n (store w)) w)).

(** [refreshIndexState()], lines 223-228. *)
Definition refreshIndexState : HM unit :=
  i <- loadIndexState ;;
  put (set_hs (fun h => set_handlerVersionName (is_handlerVersionName i)
                          (set_lastProcessed (is_blockNumber i) (is_blockHash i) h))).

(** The inner [for (const updater of ...updaters)] loop of
    [applyUpdaters], lines 119-135, over the array read when the loop
    starts.  A returned version is used only when truthy (not [""]). *)
Fixpoint run_updaters (block : Block) (isReplay : bool) (action : Action)
    (ups : list (Updater.t St)) (updaterIndex : Z) : HM unit :=
  match ups with
  | [] => sm_ret tt
  | updater :: rest =>
      if String.eqb (type action) (Updater.actionType updater) then
        w <- get ;;
        match Updater.apply updater (store w) (payload action) (blockInfo block) with
        | (st', newVersion) =>
            put (fun w => log (EvUpdaterApply (handlerVersionName (hs w)) updaterIndex action)
                            (set_store st' w)) ;;;
            match newVersion with
            | Some v =>
                if String.eqb v "" then run_updaters block isReplay action rest (updaterIndex + 1)
                else
                  w <- get ;;
                  match handlerVersionMap (hs w) !! v with
                  | None => run_updaters block isReplay action rest (updaterIndex + 1)
                  | Some _ =>
                      updateIndexState block isReplay v ;;;
                      put (set_hs (set_handlerVersionName v))
                  end
            | None => run_updaters block isReplay action rest (updaterIndex + 1)
            end
        end
      else run_updaters block isReplay action rest (updaterIndex + 1)
  end.

(** The body of the outer loop for one action: run the updaters of the
    active version ([this.handlerVersionMap[this.handlerVersionName]]
    is [undefined] for an unknown name, and [.updaters] then throws). *)
Definition apply_action (block : Block) (isReplay : bool) (action : Action) : HM unit :=
  w <- get ;;
  match handlerVersionMap (hs w) !! handlerVersionName (hs w) with
  | None => sm_throw TypeError
  | Some hv => run_updaters block isReplay action (updaters hv) 0
  end.

(** [for (const action of actions) { ...; versionedActions.push([action, this.handlerVersionName]) }] *)
Fixpoint apply_actions (block : Block) (isReplay : bool) (acts : list Action)
    : HM (list (Action * string)) :=
  match acts with
  | [] => sm_ret []
  | action :: rest =>
      apply_action block isReplay action ;;;
      w <- get ;;
      versioned <- apply_actions block isReplay rest ;;
      sm_ret ((action, handlerVersionName (hs w)) :: versioned)
  end.

(** [applyUpdaters(state, block, isReplay, context)], lines 110-139. *)
Definition applyUpdaters (block : Block) (isReplay : bool) : HM (list (Action * string)) :=
  apply_actions block isReplay (actions block).

(** The inner loop of [runEffects] over [effects]. *)
Fixpoint run_effect_list (block : Block) (name : string) (action : Action)
    (effs : list Effect.t) (effectIndex : Z) : HM unit :=
  match effs with
  | [] => sm_ret tt
  | effect :: rest =>
      (if String.eqb (type action) (Effect.actionType effect)
       then put (log (EvEffectRun name effectIndex action (blockNumber (blockInfo block))))
       else sm_ret tt) ;;;
      run_effect_list block name action rest (effectIndex + 1)
  end.

(** [runEffects(versionedActions, block, context)], lines 144-157. *)
Fixpoint runEffects (versionedActions : list (Action * string)) (block : Block) : HM unit :=
  match versionedActions with
  | [] => sm_ret tt
  | (action, name) :: rest =>
      w <- get ;;
      match handlerVersionMap (hs w) !! name with
      | None => sm_throw TypeError
      | Some hv => run_effect_list block name action (effects hv) 0
      end ;;;
      runEffects rest block
  end.

(** [handleActions(state, block, context, isReplay)], lines 169-185. *)
Definition handleActions (block : Block) (isReplay : bool) : HM unit :=
  versionedActions <- applyUpdaters block isReplay ;;
  (if negb isReplay then runEffects versionedActions block else sm_ret tt) ;;;
  w <- get ;;
  updateIndexState block isReplay (handlerVersionName (hs w)) ;;;
  put (set_hs (set_lastProcessed (blockNumber (blockInfo block)) (blockHash (blockInfo block)))).

(** [await this.handleWithState(handle)]: the binder acquires the state and
    calls [handle] on it once, as its documentation requires. *)
Definition handleWithState (handle : HM unit) : HM unit :=
  put (log EvHandleWithState) ;;;
  handle.

(** Lines 37-45 of [handleBlock]: rollback, or the first index load. *)
Definition handleBlock_prelude (block : Block) (isRollback isFirstBlock isReplay : bool) : HM unit :=
  if isRollback || (isReplay && isFirstBlock) then
    rollbackTo (blockNumber (blockInfo block) - 1) ;;;
    refreshIndexState
  else
    w <- get ;;
    if (lastProcessedBlockNumber (hs w) =? 0) && String.eqb (lastProcessedBlockHash (hs w)) ""
    then refreshIndexState
    else sm_ret tt.

(** Lines 47-74 of [handleBlock]: the checks and the application. *)
Definition handleBlock_body (block : Block) (isFirstBlock isReplay : bool) : HM (bool * Z) :=
  w <- get ;;
  let nextBlockNeeded := lastProcessedBlockNumber (hs w) + 1 in
  let bi := blockInfo block in
  if (blockNumber bi =? lastProcessedBlockNumber (hs w))
     && String.eqb (blockHash bi) (lastProcessedBlockHash (hs w)) then
    sm_ret (false, 0)
  else if isFirstBlock && negb (String.eqb (lastProcessedBlockHash (hs w)) "") then
    sm_ret (true, nextBlockNeeded)
  else if negb isFirstBlock && negb (blockNumber bi =? nextBlockNeeded) then
    sm_ret (true, nextBlockNeeded)
  else if negb isFirstBlock
          && negb (String.eqb (previousBlockHash bi) (lastProcessedBlockHash (hs w))) then
    sm_throw BlockHashMismatch
  else
    handleWithState (handleActions block isReplay) ;;;
    sm_ret (false, 0).

(** [handleBlock(block, isRollback, isFirstBlock, isReplay = false)], lines 29-75. *)
Definition handleBlock (block : Block) (isRollback isFirstBlock isReplay : bool) : HM (bool * Z) :=
  handleBlock_prelude block isRollback isFirstBlock isReplay ;;;
  handleBlock_body block isFirstBlock isReplay.

End WithBinder.

(** The invariant of the spec: the active version name is a key of the map. *)
Definition version_registered {St} (h : HandlerState St) : Prop :=
  is_Some (handlerVersionMap h !! handlerVersionName h).

Definition is_effect_event (e : Event) : bool :=
  match e with
  | EvEffectRun _ _ _ _ => true
  | _ => false
  end.

(** The log of [w'] extends the log of [w] with events satisfying [p]. *)
Definition events_grow_by {St} (p : Event -> bool) (w w' : World St) : Prop :=
  exists l, events w' = events w ++ l /\ Forall (fun e => p e = true) l.

Definition not_effect_event (e : Event) : bool := negb (is_effect_event e).

(** The active name is registered in the fixed map [m]. *)
Definition version_inv {St} (m : gmap string (HandlerVersion St)) (h : HandlerState St) : Prop :=
  handlerVersionMap h = m /\ is_Some (m !! handlerVersionName h).

(** The effect calls the spec prescribes for one versioned action: every
    effect of the version whose [actionType] is the action's type, in array
    order, with its index in the array. *)
Fixpoint effect_calls (block : Block) (name : string) (action : Action)
    (effs : list Effect.t) (effectIndex : Z) : list Event :=
  match effs with
  | [] => []
  | effect :: rest =>
      (if String.eqb (type action) (Effect.actionType effect)
       then [EvEffectRun name effectIndex action (blockNumber (blockInfo block))]
       else [])
      ++ effect_calls block name action rest (effectIndex + 1)
  end.

(** The effect calls for a whole sequence of versioned actions, each looked
    up in the version map [m]. *)
Definition effect_runs {St} (m : gmap string (HandlerVersion St))
    (versionedActions : list (Action * string)) (block : Block) : list Event :=
  flat_map (fun p => match m !! snd p with
                     | Some hv => effect_calls block (snd p) (fst p) (effects hv) 0
                     | None => []
                     end) versionedActions.

End Handler.

(** ** Concrete chains used by the examples below *)

Module Fixtures.

Definition hash_of (n : Z) : string :=
  match n with
  | 0 => "h0" | 1 => "h1" | 2 => "h2" | 3 => "h3" | 4 => "h4"
  | 5 => "h5" | 6 => "h6" | 7 => "h7" | 8 => "h8" | 9 => "h9"
  | _ => "hx"
  end%string.

(** Block [n] of a linear chain: its hash links to block [n - 1]. *)
Definition linear_block (n : Z) : Block :=
  mkBlock (mkBlockInfo n (hash_of n) (hash_of (n - 1))) [].

(** A chain whose head is [head] and which never forks. *)
Definition linear_chain (head : Z) : Reader.ChainSource :=
  Reader.mkChainSource (fun _ => head) (fun _ n => linear_block n).

End Fixtures.


Module HandlerFixtures.
Import Handler Fixtures.

(** A persistence binder whose state is the index cursor itself. *)
Definition cursor_binder : Binder IndexState :=
  mkBinder
    (fun _ b _ v => mkIndexState (blockNumber (blockInfo b)) (blockHash (blockInfo b)) v)
    (fun st => st)
    (fun n st => mkIndexState n (hash_of n) (is_handlerVersionName st)).

(** Version "v1" with one updater for "switch" actions that returns the
    version name [target]. *)
Definition v1_switching_to (target : string) : HandlerVersion IndexState :=
  mkHandlerVersion "v1" [Updater.mk "switch" (fun st _ _ => (st, Some target))]
                   [Effect.mk "switch"].

Definition plain_version (name : string) : HandlerVersion IndexState :=
  mkHandlerVersion name [] [Effect.mk "switch"].

Definition switch_block (n : Z) : Block :=
  mkBlock (mkBlockInfo n (hash_of n) (hash_of (n - 1))) [mkAction "switch" "p"].

(** A handler with versions "v1" (switching to [target]) and [other],
    having processed block [n]. *)
Definition handler_at (target other : string) (n : Z) : World IndexState :=
  {| hs := {| lastProcessedBlockNumber := n;
              lastProcessedBlockHash := hash_of n;
              handlerVersionName := "v1";
              handlerVersionMap := <["v1" := v1_switching_to target]>
                                     (<[other := plain_version other]> ∅) |};
     store := mkIndexState n (hash_of n) "v1";
     events := [] |}.

(** A binder whose loaded index state always names version "v1". *)
Definition pinned_binder : Binder IndexState :=
  mkBinder
    (fun _ b _ v => mkIndexState (blockNumber (blockInfo b)) (blockHash (blockInfo b)) v)
    (fun st => mkIndexState (is_blockNumber st) (is_blockHash st) "v1")
    (fun n st => mkIndexState n (hash_of n) (is_handlerVersionName st)).

End HandlerFixtures.

(** Reader states positioned by hand, for the examples of [ReaderExtra]. *)
Module ReaderFixtures.
Import Reader Fixtures.

Definition reader_at (cur head : Z) (hist tmp : list Block) (data : option Block) : ReaderState :=
  set_tmpBlocks tmp (set_currentBlockData data (set_blockHistory hist
    (set_headBlockNumber head (set_currentBlockNumber cur (constructor 1 false 600))))).

Definition forked_block (n : Z) : Block := mkBlock (mkBlockInfo n "fork" "hx") [].

End ReaderFixtures.

(** ** Monad facts *)

Lemma sm_bind_snd {W A B} (m : SM W A) (k : A -> SM W B) w :
  snd (sm_bind m k w) = match m w with (Ok a, w') => snd (k a w') | (Err _, w') => w' end.
Proof. unfold sm_bind. destruct (m w) as [[a|e] w']; reflexivity. Qed.

(** ** Reader: properties *)

Module ReaderFacts.
Import Reader Fixtures.

Lemma fetch_blocks_spec (src : ChainSource) (count : nat) : forall (i : Z) (w : World),
  exists bs, fetch_blocks src i count w =
    (Ok bs, {| rs := rs w; calls := calls w ++ map CallGetBlock (seqZ i (Z.of_nat count)) |}).
Proof.
  induction count as [|count IH]; intros i w.
  - exists (@nil Block). destruct w; cbn. rewrite app_nil_r. reflexivity.
  - destruct (IH (i + 1) {| rs := rs w; calls := calls w ++ [CallGetBlock i] |}) as [bs Hbs].
    rewrite seqZ_cons by lia.
    replace (Z.pred (Z.of_nat (S count))) with (Z.of_nat count) by lia.
    eexists. cbn [fetch_blocks]. unfold sm_bind at 1, getBlock. cbn [rs calls].
    unfold sm_bind at 1. rewrite Hbs. unfold sm_ret. cbn [rs calls].
    rewrite <- app_assoc. reflexivity.
Qed.

(** C1 (code slip): on a fresh reader with [startAtBlock = 6] and a chain
    whose head is 7, the first [nextBlock] fetches blocks 0 through 6, not
    6 through 7, and leaves [currentBlockNumber] at 0, the number of the
    first prefetched block. *)
Theorem nextBlock_prefetches_from_zero :
  let '(r, w) := nextBlock (linear_chain 7) {| rs := constructor 6 false 600; calls := [] |} in
  calls w = [CallGetHeadBlockNumber; CallGetBlock 0; CallGetBlock 1; CallGetBlock 2;
             CallGetBlock 3; CallGetBlock 4; CallGetBlock 5; CallGetBlock 6]
  /\ map (fun b => blockNumber (blockInfo b)) (tmpBlocks (rs w)) = [0; 1; 2; 3; 4; 5; 6]
  /\ currentBlockNumber (rs w) = 0
  /\ r = Ok (linear_block 0, false, true).
Proof. vm_compute. repeat split. Qed.

(** C2 (code slip): [seekToBlock] with a block that is not in the
    history pops the second-newest history entry into [currentBlockData]
    instead of fetching [getBlock(blockNumber - 1)]; with a block that is
    in the history at the second-newest place, it empties the history. *)
Theorem seekToBlock_history_scan_slip :
  (let '(r, w) := seekToBlock (linear_chain 7) 5
       {| rs := set_blockHistory [linear_block 1; linear_block 2] (constructor 1 false 600);
          calls := [] |} in
   r = Ok tt /\ calls w = []
   /\ currentBlockData (rs w) = Some (linear_block 1)
   /\ blockHistory (rs w) = []
   /\ currentBlockNumber (rs w) = 4)
  /\
  (let '(r, w) := seekToBlock (linear_chain 7) 2
       {| rs := set_blockHistory [linear_block 1; linear_block 2; linear_block 3]
                  (constructor 1 false 600);
          calls := [] |} in
   r = Ok tt /\ calls w = [CallGetBlock 1]
   /\ currentBlockData (rs w) = Some (linear_block 1)
   /\ blockHistory (rs w) = []
   /\ currentBlockNumber (rs w) = 1).
Proof. vm_compute. repeat split. Qed.

(** C3, counterexample: a fresh reader with [startAtBlock = -5] on a
    chain whose head is 100 ends the tail step at block 94, not at
    [100 + (-5)]; [startAtBlock] becomes 95. *)
Lemma tail_resolution_counterexample :
  let w := snd ((head_refresh (linear_chain 100) ;;; tail_resolution)
                  {| rs := constructor (-5) false 600; calls := [] |}) in
  headBlockNumber (rs w) = 100 /\ currentBlockNumber (rs w) = 94
  /\ startAtBlock (rs w) = 95
  /\ currentBlockNumber (rs w) <> headBlockNumber (rs w) + (-5).
Proof. vm_compute. repeat split. discriminate. Qed.

(** C3 (amended): when [currentBlockNumber] is negative and the history is
    empty, after the head refresh and the tail step [currentBlockNumber] is
    the head plus its previous value (a fresh reader has
    [startAtBlock - 1] there) and [startAtBlock] is one more than that. *)
Theorem tail_resolution_rebases_start (src : ChainSource) (w : World) :
  currentBlockNumber (rs w) < 0 -> blockHistory (rs w) = [] ->
  let w' := snd ((head_refresh src ;;; tail_resolution) w) in
  currentBlockNumber (rs w') = headBlockNumber (rs w') + currentBlockNumber (rs w)
  /\ startAtBlock (rs w') = headBlockNumber (rs w') + currentBlockNumber (rs w) + 1.
Proof.
  intros Hneg Hhist. destruct w as [s cs]. cbn in Hneg, Hhist |- *.
  assert (Hlt : (currentBlockNumber s <? 0) = true) by (apply Z.ltb_lt; exact Hneg).
  unfold head_refresh, tail_resolution, sm_bind, get, put, getHeadBlockNumber, sm_ret.
  cbn [rs calls fst snd].
  destruct ((currentBlockNumber s =? headBlockNumber s) || (headBlockNumber s =? 0));
    cbn; rewrite Hlt, Hhist; cbn; split; lia.
Qed.

Lemma tail_resolution_rebases_start_witness :
  let w := {| rs := constructor (-5) false 600; calls := [] |} in
  currentBlockNumber (rs w) < 0 /\ blockHistory (rs w) = [] /\
  (let w' := snd ((head_refresh (linear_chain 100) ;;; tail_resolution) w) in
   currentBlockNumber (rs w') = headBlockNumber (rs w') + currentBlockNumber (rs w)
   /\ startAtBlock (rs w') = headBlockNumber (rs w') + currentBlockNumber (rs w) + 1).
Proof.
  cbn zeta. split; [vm_compute; reflexivity | split; [reflexivity |]].
  apply (tail_resolution_rebases_start (linear_chain 100)); vm_compute; reflexivity.
Defined.

(** C10: [seekToBlock] to a block before [startAtBlock] throws only after
    clearing [currentBlockData] and [headBlockNumber]. *)
Theorem seekToBlock_before_start_clears (src : ChainSource) (w : World) (n : Z) :
  n < startAtBlock (rs w) ->
  seekToBlock src n w =
    (Err SeekBeforeStart,
     {| rs := set_headBlockNumber 0 (set_currentBlockData None (rs w)); calls := calls w |}).
Proof.
  intros Hn. destruct w as [s cs]. cbn in Hn.
  unfold seekToBlock, sm_bind, get, put, sm_throw. cbn.
  rewrite (proj2 (Z.ltb_lt _ _) Hn). reflexivity.
Qed.

Lemma seekToBlock_before_start_clears_witness :
  let w := {| rs := set_headBlockNumber 9
                      (set_currentBlockData (Some (linear_block 8)) (constructor 6 false 600));
              calls := [] |} in
  3 < startAtBlock (rs w) /\
  seekToBlock (linear_chain 9) 3 w =
    (Err SeekBeforeStart,
     {| rs := set_headBlockNumber 0 (set_currentBlockData None (rs w)); calls := calls w |}).
Proof.
  cbn zeta. split; [vm_compute; reflexivity |].
  apply (seekToBlock_before_start_clears (linear_chain 9)). vm_compute. reflexivity.
Defined.

Lemma hng_refl s : history_not_grown s s.
Proof. split; reflexivity. Qed.
Lemma hng_trans s1 s2 s3 : history_not_grown s1 s2 -> history_not_grown s2 s3 -> history_not_grown s1 s3.
Proof. unfold history_not_grown. intros [] []. split; lia. Qed.
Lemma bounded_hng s s' : history_bounded s -> history_not_grown s s' -> history_bounded s'.
Proof. unfold history_bounded, history_not_grown. intros ? []. lia. Qed.
Lemma length_removelast_le {A} (l : list A) : (length (removelast l) <= length l)%nat.
Proof. induction l as [|x [|y l] IH]; cbn in *; lia. Qed.

Lemma head_refresh_hng src w : history_not_grown (rs w) (rs (snd (head_refresh src w))).
Proof.
  unfold head_refresh, sm_bind, get, put, getHeadBlockNumber, sm_ret. cbn.
  destruct (_ || _); split; cbn; lia.
Qed.
Lemma tail_resolution_hng w : history_not_grown (rs w) (rs (snd (tail_resolution w))).
Proof.
  unfold tail_resolution, sm_bind, get, put, sm_ret. cbn.
  destruct (_ && _); split; cbn; lia.
Qed.
Lemma prefetch_hng src w : history_not_grown (rs w) (rs (snd (prefetch src w))).
Proof.
  unfold prefetch, sm_bind at 1, get at 1. cbn [fst snd].
  destruct (_ =? _)%nat; [|apply hng_refl].
  unfold sm_bind at 1, put at 1. cbn [fst snd].
  unfold sm_bind at 1, get at 1. cbn [fst snd rs calls].
  unfold sm_bind at 1.
  destruct (fetch_blocks_spec src (Z.to_nat (headBlockNumber (set_currentBlockNumber 0 (rs w)))) 0
              {| rs := set_currentBlockNumber 0 (rs w); calls := calls w |}) as [bs Hbs].
  rewrite Hbs. cbn. split; cbn; lia.
Qed.

Lemma resolve_loop_hng src fuel : forall w, history_not_grown (rs w) (rs (snd (resolve_loop src fuel w))).
Proof.
  induction fuel as [|fuel IH]; intros w; [apply hng_refl|].
  cbn [resolve_loop]. unfold sm_bind at 1, get at 1. cbn [fst snd].
  destruct (last (blockHistory (rs w))) as [prev|]; [|apply hng_refl].
  destruct (currentBlockData (rs w)) as [cur|]; [|apply hng_refl].
  unfold sm_bind, getBlock, put, sm_ret. cbn.
  destruct (String.eqb _ _); [split; cbn; lia|].
  eapply hng_trans; [|apply IH]. split; cbn; [apply length_removelast_le | reflexivity].
Qed.

Lemma resolveFork_hng src w : history_not_grown (rs w) (rs (snd (resolveFork src w))).
Proof.
  unfold resolveFork. unfold sm_bind at 1, get at 1. cbn [fst snd].
  destruct (currentBlockData (rs w)); [|apply hng_refl].
  rewrite sm_bind_snd. pose proof (resolve_loop_hng src (length (blockHistory (rs w))) w) as H1.
  destruct (resolve_loop src (length (blockHistory (rs w))) w) as [[[]|e] w1]; cbn in H1 |- *; [|exact H1].
  eapply hng_trans; [exact H1|].
  unfold sm_bind, get, historyExhausted, sm_throw, sm_ret, put. cbn.
  destruct (length (blockHistory (rs w1)) =? 0)%nat; cbn; [apply hng_refl|].
  destruct (last _); cbn; split; cbn; lia.
Qed.

Lemma seekToBlock_hng src n w : history_not_grown (rs w) (rs (snd (seekToBlock src n w))).
Proof.
  unfold seekToBlock, sm_bind, get, put, sm_throw, sm_ret, getBlock, pop, splice_from. cbn.
  repeat case_match; simplify_eq/=; split; cbn; try lia.
  all: etrans; [apply length_removelast_le|]; rewrite length_take; lia.
Qed.

Lemma splice_trim_bounded (l : list Block) (m : Z) : 0 <= m ->
  Z.of_nat (length (splice_front l (Z.of_nat (length l) - m))) <= m.
Proof. intros Hm. unfold splice_front. rewrite length_drop. lia. Qed.

Lemma advance_bounded src w : history_bounded (rs w) -> history_bounded (rs (snd (advance src w))).
Proof.
  intros Hb. unfold advance, sm_bind at 1, get at 1. cbn [fst snd].
  destruct (_ <? _); [|exact Hb].
  rewrite sm_bind_snd. pose proof (prefetch_hng src w) as Hp.
  destruct (prefetch src w) as [[[]|e] w1]; cbn [snd] in Hp |- *;
    [|eapply bounded_hng; eauto].
  assert (Hb1 : history_bounded (rs w1)) by (eapply bounded_hng; eauto).
  clear Hp Hb.
  unfold sm_bind at 1, get at 1. cbn [fst snd].
  unfold sm_bind at 1, put at 1. cbn [fst snd rs calls].
  destruct (nth_error _ _) as [u|]; [|exact Hb1].
  destruct (_ || _).
  - unfold sm_bind, put, sm_ret. cbn -[splice_front].
    apply splice_trim_bounded. unfold history_bounded in Hb1. cbn. lia.
  - rewrite sm_bind_snd.
    match goal with |- context [resolveFork src ?w2] =>
      pose proof (resolveFork_hng src w2) as Hr;
      destruct (resolveFork src w2) as [[[]|e] w3] end;
    cbn [snd] in Hr |- *; eapply bounded_hng in Hr; try exact Hb1.
    + unfold sm_bind, getHeadBlockNumber, put, sm_ret. cbn. exact Hr.
    + exact Hr.
Qed.

Lemma nextBlock_bounded src w : history_bounded (rs w) -> history_bounded (rs (snd (nextBlock src w))).
Proof.
  intros Hb. unfold nextBlock.
  rewrite sm_bind_snd. pose proof (head_refresh_hng src w) as H1.
  destruct (head_refresh src w) as [[[]|e] w1]; cbn [snd] in H1 |- *;
    eapply bounded_hng in H1; try exact Hb; [|exact H1].
  rewrite sm_bind_snd. pose proof (tail_resolution_hng w1) as H2.
  destruct (tail_resolution w1) as [[[]|e] w2]; cbn [snd] in H2 |- *;
    eapply bounded_hng in H2; try exact H1; [|exact H2].
  rewrite sm_bind_snd. pose proof (advance_bounded src w2 H2) as H3.
  destruct (advance src w2) as [[flags|e] w3]; cbn [snd] in H3 |- *; [|exact H3].
  unfold sm_bind, put, get, sm_throw, sm_ret. cbn.
  destruct (currentBlockData _); exact H3.
Qed.

(** C9: the history bound [length blockHistory <= maxHistoryLength] holds
    after [nextBlock], [resolveFork] and [seekToBlock] when it held
    before, whether the call returns or throws. *)
Theorem history_bound_preserved (src : ChainSource) (w : World) :
  history_bounded (rs w) ->
  history_bounded (rs (snd (nextBlock src w)))
  /\ history_bounded (rs (snd (resolveFork src w)))
  /\ (forall n, history_bounded (rs (snd (seekToBlock src n w)))).
Proof.
  intros Hb. split; [|split].
  - apply nextBlock_bounded; exact Hb.
  - eapply bounded_hng; [exact Hb | apply resolveFork_hng].
  - intros n. eapply bounded_hng; [exact Hb | apply seekToBlock_hng].
Qed.

Lemma history_bound_preserved_witness :
  let w := {| rs := set_currentBlockData (Some (linear_block 3))
                      (set_currentBlockNumber 3
                        (set_blockHistory [linear_block 1; linear_block 2]
                           (constructor 1 false 2)));
              calls := [] |} in
  history_bounded (rs w) /\
  (history_bounded (rs (snd (nextBlock (linear_chain 6) w)))
   /\ history_bounded (rs (snd (resolveFork (linear_chain 6) w)))
   /\ (forall n, history_bounded (rs (snd (seekToBlock (linear_chain 6) n w))))).
Proof.
  cbn zeta. split; [unfold history_bounded; cbn; lia |].
  apply (history_bound_preserved (linear_chain 6)). unfold history_bounded; cbn; lia.
Defined.

End ReaderFacts.

(** ** Handler: properties *)

Module HandlerFacts.
Import Handler Fixtures HandlerFixtures.

Section Facts.
Context {St : Type}.

(** C5, counterexample: with [isRollback] the handler rolls back, reloads
    its cursor and applies again the block it had just processed. *)
Lemma handleBlock_rollback_reapplies :
  let w := handler_at "v2" "v2" 5 in
  lastProcessedBlockNumber (hs w) = blockNumber (blockInfo (switch_block 5))
  /\ lastProcessedBlockHash (hs w) = blockHash (blockInfo (switch_block 5))
  /\ let '(r, w') := handleBlock cursor_binder (switch_block 5) true false false w in
     r = Ok (false, 0)
     /\ events w' = [EvRollbackTo 4; EvLoadIndexState; EvHandleWithState;
                     EvUpdaterApply "v1" 0 (mkAction "switch" "p");
                     EvUpdateIndexState 5 false "v2";
                     EvEffectRun "v2" 0 (mkAction "switch" "p") 5;
                     EvUpdateIndexState 5 false "v2"].
Proof. vm_compute. repeat split. Qed.

(** C5 (amended): without a rollback (and not a replayed first block),
    a block equal to the in-memory cursor, when that cursor is not the
    initial [(0, "")], is skipped: [handleBlock] returns [(false, 0)]
    without any call and leaves the handler unchanged.  With a rollback or
    a replayed first block the in-memory cursor is not consulted: the
    handler calls [rollbackTo(blockNumber - 1)], reloads its cursor and
    version from [loadIndexState], and runs its checks against the
    reloaded cursor. *)
Theorem handleBlock_skips_processed (binder : Binder St) (b : Block)
    (isRollback isFirstBlock isReplay : bool) (w : World St) :
  (isRollback = false ->
   isReplay && isFirstBlock = false ->
   blockNumber (blockInfo b) = lastProcessedBlockNumber (hs w) ->
   blockHash (blockInfo b) = lastProcessedBlockHash (hs w) ->
   ~ (lastProcessedBlockNumber (hs w) = 0 /\ lastProcessedBlockHash (hs w) = ""%string) ->
   handleBlock binder b isRollback isFirstBlock isReplay w = (Ok (false, 0), w))
  /\ (isRollback || isReplay && isFirstBlock = true ->
      let st1 := rollbackTo_impl binder (blockNumber (blockInfo b) - 1) (store w) in
      let i := loadIndexState_impl binder st1 in
      handleBlock binder b isRollback isFirstBlock isReplay w
      = handleBlock_body binder b isFirstBlock isReplay
          {| hs := set_handlerVersionName (is_handlerVersionName i)
                     (set_lastProcessed (is_blockNumber i) (is_blockHash i) (hs w));
             store := st1;
             events := events w ++ [EvRollbackTo (blockNumber (blockInfo b) - 1);
                                    EvLoadIndexState] |}).
Proof.
  split.
  - intros Hrb Hfl Hn Hh Hinit. subst isRollback.
    unfold handleBlock, handleBlock_prelude. cbn [orb]. rewrite Hfl.
    unfold sm_bind, get, sm_get, sm_ret. cbn [fst snd].
    replace ((lastProcessedBlockNumber (hs w) =? 0)
             && String.eqb (lastProcessedBlockHash (hs w)) "") with false.
    2:{ symmetry. apply andb_false_iff.
        destruct (Z.eqb_spec (lastProcessedBlockNumber (hs w)) 0) as [E|E]; [|left; reflexivity].
        right. apply String.eqb_neq. intros E'. apply Hinit. split; assumption. }
    unfold handleBlock_body, sm_bind, get, sm_get, sm_ret. cbn [fst snd].
    rewrite Hn, Hh, Z.eqb_refl, String.eqb_refl. reflexivity.
  - intros Hc. cbv zeta.
    unfold handleBlock, handleBlock_prelude. rewrite Hc.
    unfold sm_bind at 1.
    unfold rollbackTo, refreshIndexState, loadIndexState, sm_bind, get, sm_get, put, sm_modify,
      sm_ret.
    cbn [fst snd]. unfold log, set_store, set_hs. cbn.
    rewrite <- app_assoc. reflexivity.
Qed.

(** C6: for a block that is not the first one, once the rollback or
    first-load step has produced the in-memory cursor, a block that is not
    the cursor itself is answered with a seek to the cursor's successor when
    its number is not that successor, and rejected with the hash-mismatch
    error (with no further call and no change) when its number is the
    successor but its previous hash is not the cursor's hash. *)
Theorem handleBlock_sequence_check (binder : Binder St) (b : Block)
    (isRollback isReplay : bool) (w w1 : World St) :
  handleBlock_prelude binder b isRollback false isReplay w = (Ok tt, w1) ->
  ~ (blockNumber (blockInfo b) = lastProcessedBlockNumber (hs w1)
     /\ blockHash (blockInfo b) = lastProcessedBlockHash (hs w1)) ->
  (blockNumber (blockInfo b) <> lastProcessedBlockNumber (hs w1) + 1 ->
   handleBlock binder b isRollback false isReplay w
     = (Ok (true, lastProcessedBlockNumber (hs w1) + 1), w1))
  /\ (blockNumber (blockInfo b) = lastProcessedBlockNumber (hs w1) + 1 ->
      previousBlockHash (blockInfo b) <> lastProcessedBlockHash (hs w1) ->
      handleBlock binder b isRollback false isReplay w = (Err BlockHashMismatch, w1)).
Proof.
  intros Hpre Hnot.
  assert (Hskip : (blockNumber (blockInfo b) =? lastProcessedBlockNumber (hs w1))
                  && String.eqb (blockHash (blockInfo b)) (lastProcessedBlockHash (hs w1)) = false).
  { apply andb_false_iff.
    destruct (Z.eqb_spec (blockNumber (blockInfo b)) (lastProcessedBlockNumber (hs w1))) as [E|E];
      [|left; reflexivity].
    right. apply String.eqb_neq. intros E'. apply Hnot. split; assumption. }
  assert (Hb : handleBlock binder b isRollback false isReplay w
               = handleBlock_body binder b false isReplay w1).
  { unfold handleBlock, sm_bind at 1. rewrite Hpre. destruct (handleBlock_body _ _ _ _ _); reflexivity. }
  rewrite Hb. clear Hb Hpre.
  unfold handleBlock_body, sm_bind, get, sm_get, sm_ret, sm_throw. cbv zeta. cbn [fst snd andb negb].
  rewrite Hskip. split.
  - intros Hn.
    destruct (Z.eqb_spec (blockNumber (blockInfo b)) (lastProcessedBlockNumber (hs w1) + 1));
      [contradiction | reflexivity].
  - intros Hn Hp.
    destruct (Z.eqb_spec (blockNumber (blockInfo b)) (lastProcessedBlockNumber (hs w1) + 1));
      [|contradiction].
    destruct (String.eqb_spec (previousBlockHash (blockInfo b)) (lastProcessedBlockHash (hs w1)));
      [contradiction | reflexivity].
Qed.

(** An updater matching the action that returns a
    non-empty registered version name makes the handler persist the index
    state with that name, switch to it, and stop: the updaters after it
    ([rest]) do not run. *)
Lemma run_updaters_switch (binder : Binder St) (b : Block) (isReplay : bool)
    (a : Action) (u : Updater.t St) (rest : list (Updater.t St)) (idx : Z)
    (w : World St) (st' : St) (v : string) :
  type a = Updater.actionType u ->
  Updater.apply u (store w) (payload a) (blockInfo b) = (st', Some v) ->
  v <> ""%string ->
  is_Some (handlerVersionMap (hs w) !! v) ->
  run_updaters binder b isReplay a (u :: rest) idx w =
    (Ok tt,
     {| hs := set_handlerVersionName v (hs w);
        store := updateIndexState_impl binder st' b isReplay v;
        events := events w ++ [EvUpdaterApply (handlerVersionName (hs w)) idx a;
                               EvUpdateIndexState (blockNumber (blockInfo b)) isReplay v] |}).
Proof.
  intros Hty Happ Hv [hv Hhv].
  cbn [run_updaters]. rewrite Hty, String.eqb_refl.
  unfold sm_bind at 1, get, sm_get. cbn [fst snd]. rewrite Happ.
  apply String.eqb_neq in Hv.
  unfold sm_bind, put, sm_modify, sm_get. cbn -[lookup]. rewrite Hv.
  unfold log, set_store, set_hs. cbn -[lookup]. rewrite Hhv. cbn -[lookup].
  rewrite <- app_assoc. reflexivity.
Qed.

Lemma apply_actions_cons_snd (binder : Binder St) (b : Block) (isReplay : bool)
    (x : Action) (l : list Action) (w w1 : World St) :
  apply_action binder b isReplay x w = (Ok tt, w1) ->
  snd (apply_actions binder b isReplay (x :: l) w) = snd (apply_actions binder b isReplay l w1).
Proof.
  intros H. cbn [apply_actions]. unfold sm_bind at 1. rewrite H.
  unfold sm_bind, get, sm_get, sm_ret. cbn [fst snd].
  destruct (apply_actions binder b isReplay l w1) as [[]]; reflexivity.
Qed.

(** The i-th versioned action is the i-th action paired
    with the version name active once the updaters of actions 0..i ran. *)
Lemma apply_actions_pairing (binder : Binder St) (b : Block) (isReplay : bool)
    (acts : list Action) :
  forall (w w' : World St) (va : list (Action * string)),
  apply_actions binder b isReplay acts w = (Ok va, w') ->
  map fst va = acts
  /\ forall i a v, va !! i = Some (a, v) ->
     v = handlerVersionName (hs (snd (apply_actions binder b isReplay (take (S i) acts) w))).
Proof.
  induction acts as [|x l IH]; intros w w' va H.
  - cbn in H. unfold sm_ret in H. injection H as <- _. split; [reflexivity|].
    intros i a v Hi. discriminate Hi.
  - cbn [apply_actions] in H. unfold sm_bind at 1 in H.
    destruct (apply_action binder b isReplay x w) as [[[]|e] w1] eqn:E1; [|discriminate H].
    unfold sm_bind, get, sm_get in H. cbn [fst snd] in H.
    destruct (apply_actions binder b isReplay l w1) as [[va'|e] w2] eqn:E2; [|discriminate H].
    unfold sm_ret in H. injection H as <- _.
    destruct (IH w1 w2 va' E2) as [Hmap Hpair]. split; [cbn; rewrite Hmap; reflexivity|].
    intros [|i] a v Hi.
    + cbn in Hi. injection Hi as _ <-.
      cbn [take]. rewrite (apply_actions_cons_snd _ _ _ _ _ _ _ E1). reflexivity.
    + cbn in Hi. cbn [take]. rewrite (apply_actions_cons_snd _ _ _ _ _ _ _ E1).
      exact (Hpair i a v Hi).
Qed.

(** [applyUpdaters] switches versions on a non-empty registered name
    returned by a matching updater: it persists the index state with the
    new name, switches to it and skips the remaining updaters of the
    action; and every action of the block comes back paired with the
    version active after that action's updaters ran. *)
Theorem applyUpdaters_version_switch (binder : Binder St) (b : Block) (isReplay : bool) :
  (forall (a : Action) (u : Updater.t St) (rest : list (Updater.t St)) (idx : Z)
          (w : World St) (st' : St) (v : string),
     type a = Updater.actionType u ->
     Updater.apply u (store w) (payload a) (blockInfo b) = (st', Some v) ->
     v <> ""%string ->
     is_Some (handlerVersionMap (hs w) !! v) ->
     run_updaters binder b isReplay a (u :: rest) idx w =
       (Ok tt,
        {| hs := set_handlerVersionName v (hs w);
           store := updateIndexState_impl binder st' b isReplay v;
           events := events w ++ [EvUpdaterApply (handlerVersionName (hs w)) idx a;
                                  EvUpdateIndexState (blockNumber (blockInfo b)) isReplay v] |}))
  /\ (forall (w w' : World St) (va : list (Action * string)),
      applyUpdaters binder b isReplay w = (Ok va, w') ->
      map fst va = actions b
      /\ forall i a v, va !! i = Some (a, v) ->
         v = handlerVersionName
               (hs (snd (apply_actions binder b isReplay (take (S i) (actions b)) w)))).
Proof.
  split.
  - intros. apply run_updaters_switch; assumption.
  - intros w w' va H. apply (apply_actions_pairing binder b isReplay (actions b) w w' va H).
Qed.

Lemma grow_refl (p : Event -> bool) (w : World St) : events_grow_by p w w.
Proof. exists []. split; [symmetry; apply app_nil_r | constructor]. Qed.

Lemma grow_trans (p : Event -> bool) (w1 w2 w3 : World St) :
  events_grow_by p w1 w2 -> events_grow_by p w2 w3 -> events_grow_by p w1 w3.
Proof.
  intros [l1 [E1 F1]] [l2 [E2 F2]]. exists (l1 ++ l2). split.
  - rewrite E2, E1, app_assoc. reflexivity.
  - apply Forall_app. split; assumption.
Qed.

Ltac grow_one := eexists; split; [reflexivity | repeat constructor].

Lemma run_updaters_no_effects (binder : Binder St) (b : Block) (isReplay : bool)
    (a : Action) (ups : list (Updater.t St)) :
  forall idx (w : World St),
  events_grow_by not_effect_event w (snd (run_updaters binder b isReplay a ups idx w)).
Proof.
  induction ups as [|u ups IH]; intros idx w; cbn [run_updaters]; [apply grow_refl|].
  destruct (String.eqb _ _); [|apply IH].
  unfold sm_bind at 1, get, sm_get. cbn [fst snd].
  destruct (Updater.apply u (store w) (payload a) (blockInfo b)) as [st' nv].
  unfold sm_bind at 1, put at 1, sm_modify at 1. cbn [fst snd].
  apply grow_trans with (w2 := log (EvUpdaterApply (handlerVersionName (hs w)) idx a)
                                   (set_store st' w)); [grow_one|].
  destruct nv as [v|]; [|apply IH].
  destruct (String.eqb v ""); [apply IH|].
  unfold sm_bind at 1. cbn [fst snd].
  destruct (handlerVersionMap _ !! v); [|apply IH].
  unfold updateIndexState, sm_bind, put, sm_modify. cbn [fst snd]. grow_one.
Qed.

Lemma apply_action_no_effects (binder : Binder St) (b : Block) (isReplay : bool)
    (a : Action) (w : World St) :
  events_grow_by not_effect_event w (snd (apply_action binder b isReplay a w)).
Proof.
  unfold apply_action, sm_bind at 1, get, sm_get. cbn [fst snd].
  destruct (_ !! _); [apply run_updaters_no_effects | apply grow_refl].
Qed.

Lemma applyUpdaters_no_effects (binder : Binder St) (b : Block) (isReplay : bool) :
  forall (acts : list Action) (w : World St),
  events_grow_by not_effect_event w (snd (apply_actions binder b isReplay acts w)).
Proof.
  induction acts as [|x l IH]; intros w; cbn [apply_actions]; [apply grow_refl|].
  rewrite sm_bind_snd. pose proof (apply_action_no_effects binder b isReplay x w) as H1.
  destruct (apply_action binder b isReplay x w) as [[[]|e] w1]; cbn [snd] in H1 |- *; [|exact H1].
  eapply grow_trans; [exact H1|].
  unfold sm_bind at 1, get, sm_get. cbn [fst snd].
  rewrite sm_bind_snd. pose proof (IH w1) as H2.
  destruct (apply_actions binder b isReplay l w1) as [[]]; exact H2.
Qed.

(** [runEffects] only logs effect runs: it does not touch the handler. *)
Lemma run_effect_list_effects (b : Block) (name : string) (a : Action) (effs : list Effect.t) :
  forall idx (w : World St),
  fst (run_effect_list b name a effs idx w) = Ok tt
  /\ events_grow_by is_effect_event w (snd (run_effect_list b name a effs idx w))
  /\ hs (snd (run_effect_list b name a effs idx w)) = hs w.
Proof.
  induction effs as [|e effs IH]; intros idx w; cbn [run_effect_list].
  - split; [reflexivity|]. split; [apply grow_refl | reflexivity].
  - destruct (String.eqb _ _).
    + unfold sm_bind at 1, put, sm_modify. cbn [fst snd].
      destruct (IH (idx + 1) (log (EvEffectRun name idx a (blockNumber (blockInfo b))) w))
        as [Hok [Hg Hh]].
      split; [exact Hok|]. split; [|exact Hh].
      apply grow_trans with (w2 := log (EvEffectRun name idx a (blockNumber (blockInfo b))) w);
        [grow_one | exact Hg].
    + unfold sm_bind at 1, sm_ret. cbn [fst snd]. apply IH.
Qed.

Lemma runEffects_effects (b : Block) :
  forall (va : list (Action * string)) (w : World St),
  events_grow_by is_effect_event w (snd (runEffects va b w))
  /\ hs (snd (runEffects va b w)) = hs w.
Proof.
  induction va as [|[a name] va IH]; intros w.
  - split; [apply grow_refl | reflexivity].
  - assert (E : runEffects ((a, name) :: va) b w =
                sm_bind (match handlerVersionMap (hs w) !! name with
                         | Some hv => run_effect_list b name a (effects hv) 0
                         | None => sm_throw TypeError
                         end) (fun _ => runEffects va b) w) by reflexivity.
    rewrite E; clear E.
    destruct (handlerVersionMap (hs w) !! name) as [hv|].
    + unfold sm_bind.
      destruct (run_effect_list_effects b name a (effects hv) 0 w) as [Hok [Hg Hh]].
      destruct (run_effect_list b name a (effects hv) 0 w) as [r w1].
      cbn in Hok, Hg, Hh. subst r. cbn -[lookup runEffects].
      destruct (IH w1) as [Hg' Hh']. split; [eapply grow_trans; eassumption | congruence].
    + unfold sm_bind, sm_throw. cbn. split; [apply grow_refl | reflexivity].
Qed.

Lemma bind_pres {A B} (P : World St -> Prop) (m : SM (World St) A) (k : A -> SM (World St) B)
    (w : World St) :
  P (snd (m w)) -> (forall a w', m w = (Ok a, w') -> P w' -> P (snd (k a w'))) ->
  P (snd (sm_bind m k w)).
Proof.
  intros H1 H2. rewrite sm_bind_snd.
  destruct (m w) as [[a|e] w'] eqn:E; cbn in *; eauto.
Qed.

Lemma run_updaters_inv (binder : Binder St) (b : Block) (isReplay : bool) (a : Action)
    (m : gmap string (HandlerVersion St)) (ups : list (Updater.t St)) :
  forall idx (w : World St), version_inv m (hs w) ->
  version_inv m (hs (snd (run_updaters binder b isReplay a ups idx w))).
Proof.
  induction ups as [|u ups IH]; intros idx w Hw; cbn [run_updaters]; [exact Hw|].
  destruct (String.eqb _ _); [|apply IH; exact Hw].
  unfold sm_bind at 1, get, sm_get. cbn [fst snd].
  destruct (Updater.apply u (store w) (payload a) (blockInfo b)) as [st' nv].
  unfold sm_bind at 1, put at 1, sm_modify at 1. cbn [fst snd].
  destruct nv as [v|]; [|apply IH; exact Hw].
  destruct (String.eqb v ""); [apply IH; exact Hw|].
  unfold sm_bind at 1. cbn [fst snd].
  destruct (handlerVersionMap _ !! v) as [hv|] eqn:Ev; [|apply IH; exact Hw].
  unfold updateIndexState, sm_bind, put, sm_modify. cbn [fst snd].
  destruct Hw as [Hm _]. cbn in Ev. split; cbn; [exact Hm|].
  rewrite <- Hm. exists hv. exact Ev.
Qed.

Lemma apply_actions_inv (binder : Binder St) (b : Block) (isReplay : bool)
    (m : gmap string (HandlerVersion St)) :
  forall (acts : list Action) (w : World St), version_inv m (hs w) ->
  version_inv m (hs (snd (apply_actions binder b isReplay acts w))).
Proof.
  induction acts as [|x l IH]; intros w Hw; cbn [apply_actions]; [exact Hw|].
  apply (bind_pres (fun w => version_inv m (hs w))).
  - unfold apply_action, sm_bind at 1, get, sm_get. cbn [fst snd].
    destruct (_ !! _); [apply run_updaters_inv; exact Hw | exact Hw].
  - intros [] w1 _ H1. unfold sm_bind at 1, get, sm_get. cbn [fst snd].
    apply (bind_pres (fun w => version_inv m (hs w))); [apply IH; exact H1|].
    intros va w2 _ H2. exact H2.
Qed.

Lemma handleActions_inv (binder : Binder St) (b : Block) (isReplay : bool)
    (m : gmap string (HandlerVersion St)) (w : World St) :
  version_inv m (hs w) -> version_inv m (hs (snd (handleActions binder b isReplay w))).
Proof.
  intros Hw. unfold handleActions.
  apply (bind_pres (fun w => version_inv m (hs w))); [apply apply_actions_inv; exact Hw|].
  intros va w1 _ H1.
  apply (bind_pres (fun w => version_inv m (hs w))).
  { destruct (negb isReplay); [|exact H1].
    rewrite (proj2 (runEffects_effects b va w1)). exact H1. }
  intros [] w2 _ H2.
  unfold sm_bind, get, sm_get, updateIndexState, put, sm_modify. cbn -[lookup].
  destruct H2 as [Hm Hr]. split; assumption.
Qed.

(** [run_effect_list] makes exactly the calls of [effect_calls]. *)
Lemma run_effect_list_exact (b : Block) (name : string) (a : Action) (effs : list Effect.t) :
  forall idx (w : World St),
  run_effect_list b name a effs idx w
  = (Ok tt, {| hs := hs w; store := store w;
               events := events w ++ effect_calls b name a effs idx |}).
Proof.
  induction effs as [|e effs IH]; intros idx w; cbn [run_effect_list effect_calls].
  - rewrite app_nil_r. destruct w; reflexivity.
  - destruct (String.eqb _ _).
    + unfold sm_bind at 1, put, sm_modify. cbn [fst snd]. rewrite IH. cbn.
      rewrite <- app_assoc. reflexivity.
    + unfold sm_bind at 1, sm_ret. cbn [fst snd]. rewrite IH. reflexivity.
Qed.

(** With every name registered, [runEffects] returns and makes exactly the
    calls of [effect_runs]. *)
Lemma runEffects_exact (b : Block) :
  forall (va : list (Action * string)) (w : World St),
  Forall (fun p => is_Some (handlerVersionMap (hs w) !! snd p)) va ->
  runEffects va b w
  = (Ok tt, {| hs := hs w; store := store w;
               events := events w ++ effect_runs (handlerVersionMap (hs w)) va b |}).
Proof.
  induction va as [|[a name] va IH]; intros w Hall.
  - cbn. rewrite app_nil_r. destruct w; reflexivity.
  - apply Forall_cons in Hall as [[hv Hhv] Hall]. cbn [snd] in Hhv.
    assert (E : runEffects ((a, name) :: va) b w =
                sm_bind (match handlerVersionMap (hs w) !! name with
                         | Some hv => run_effect_list b name a (effects hv) 0
                         | None => sm_throw TypeError
                         end) (fun _ => runEffects va b) w) by reflexivity.
    rewrite E, Hhv. unfold sm_bind. rewrite run_effect_list_exact. cbv beta iota.
    erewrite IH; [|exact Hall]. cbn -[lookup]. unfold effect_runs. cbn -[lookup]. rewrite Hhv.
    rewrite <- app_assoc. reflexivity.
Qed.

(** Every name [applyUpdaters] pairs with an action is registered. *)
Lemma apply_actions_registered (binder : Binder St) (b : Block) (isReplay : bool) :
  forall (acts : list Action) (w w' : World St) (va : list (Action * string)),
  apply_actions binder b isReplay acts w = (Ok va, w') ->
  Forall (fun p => is_Some (handlerVersionMap (hs w') !! snd p)) va.
Proof.
  induction acts as [|x l IH]; intros w w' va H.
  - cbn in H. unfold sm_ret in H. injection H as <- _. constructor.
  - cbn [apply_actions] in H. unfold sm_bind at 1 in H.
    destruct (apply_action binder b isReplay x w) as [[[]|e] w1] eqn:E1; [|discriminate H].
    unfold sm_bind, get, sm_get in H. cbn [fst snd] in H.
    destruct (apply_actions binder b isReplay l w1) as [[va'|e] w2] eqn:E2; [|discriminate H].
    unfold sm_ret in H. injection H as <- <-.
    unfold apply_action, sm_bind at 1, get, sm_get in E1. cbn [fst snd] in E1.
    destruct (handlerVersionMap (hs w) !! handlerVersionName (hs w)) as [hv|] eqn:Ehv;
      [|discriminate E1].
    pose proof (run_updaters_inv binder b isReplay x (handlerVersionMap (hs w)) (updaters hv) 0 w
                  (conj eq_refl (ex_intro _ hv Ehv))) as H1.
    rewrite E1 in H1. cbn [snd] in H1.
    pose proof (apply_actions_inv binder b isReplay (handlerVersionMap (hs w)) l w1 H1) as H2.
    rewrite E2 in H2. cbn [snd] in H2.
    destruct H1 as [_ Hr1]. destruct H2 as [Hm2 _].
    constructor.
    + cbn [snd]. rewrite Hm2. exact Hr1.
    + exact (IH w1 w2 va' E2).
Qed.

(** C8: in replay mode [handleActions] runs no effect, whatever its
    outcome.  When it returns, it ran [applyUpdaters] over all the actions
    of the block (with no effect among its calls), then, only when
    [isReplay] is false, every effect of each versioned action's version
    whose [actionType] matches, in order, and last [updateIndexState]
    with the active version, in replay mode too. *)
Theorem handleActions_effects_only_live (binder : Binder St) (b : Block)
    (isReplay : bool) (w : World St) :
  (isReplay = true ->
   events_grow_by not_effect_event w (snd (handleActions binder b isReplay w)))
  /\ (forall w', handleActions binder b isReplay w = (Ok tt, w') ->
      exists va w1, applyUpdaters binder b isReplay w = (Ok va, w1)
        /\ map fst va = actions b
        /\ events_grow_by not_effect_event w w1
        /\ events w' = events w1
                       ++ (if isReplay then [] else effect_runs (handlerVersionMap (hs w1)) va b)
                       ++ [EvUpdateIndexState (blockNumber (blockInfo b)) isReplay
                                              (handlerVersionName (hs w1))]).
Proof.
  split.
  - intros ->. unfold handleActions. unfold sm_bind at 1.
    pose proof (applyUpdaters_no_effects binder b true (actions b) w) as G.
    unfold applyUpdaters. destruct (apply_actions binder b true (actions b) w) as [[va|e] w1].
    2:{ exact G. }
    cbn [snd] in G |- *. cbn [negb].
    unfold sm_bind, sm_ret, get, sm_get, updateIndexState, put, sm_modify. cbn.
    eapply grow_trans; [exact G|]. grow_one.
  - intros w' H. unfold handleActions in H. unfold sm_bind at 1 in H.
    destruct (applyUpdaters binder b isReplay w) as [[va|e] w1] eqn:EA; [|discriminate H].
    exists va, w1. split; [reflexivity|].
    split; [exact (proj1 (apply_actions_pairing binder b isReplay (actions b) w w1 va EA))|].
    split.
    { pose proof (applyUpdaters_no_effects binder b isReplay (actions b) w) as G.
      unfold applyUpdaters in EA. rewrite EA in G. exact G. }
    destruct isReplay; cbn [negb] in H.
    + unfold sm_bind, sm_ret, get, sm_get, updateIndexState, put, sm_modify in H. cbn in H.
      injection H as <-. reflexivity.
    + unfold sm_bind at 1 in H.
      rewrite (runEffects_exact b va w1 (apply_actions_registered binder b false (actions b) w w1 va EA))
        in H.
      unfold sm_bind, get, sm_get, updateIndexState, put, sm_modify in H. cbn in H.
      injection H as <-. cbn. rewrite <- app_assoc. reflexivity.
Qed.

Lemma refreshIndexState_inv (binder : Binder St) (m : gmap string (HandlerVersion St))
    (w : World St) :
  is_Some (m !! is_handlerVersionName (loadIndexState_impl binder (store w))) ->
  version_inv m (hs w) -> version_inv m (hs (snd (refreshIndexState binder w))).
Proof.
  intros Hl [Hm _].
  unfold refreshIndexState, loadIndexState, sm_bind, get, sm_get, put, sm_modify, sm_ret.
  cbn -[lookup]. split; [exact Hm | apply Hl].
Qed.

(** [handleBlock] keeps the active name registered when the index states
    its prelude loads (after [rollbackTo] on a rollback, or the stored one
    on the first load) name registered versions. *)
Lemma handleBlock_inv (binder : Binder St) (b : Block) (isRollback isFirstBlock isReplay : bool)
    (m : gmap string (HandlerVersion St)) (w : World St) :
  (isRollback || isReplay && isFirstBlock = true ->
   is_Some (m !! is_handlerVersionName
                   (loadIndexState_impl binder
                      (rollbackTo_impl binder (blockNumber (blockInfo b) - 1) (store w))))) ->
  (isRollback || isReplay && isFirstBlock = false ->
   lastProcessedBlockNumber (hs w) = 0 -> lastProcessedBlockHash (hs w) = ""%string ->
   is_Some (m !! is_handlerVersionName (loadIndexState_impl binder (store w)))) ->
  version_inv m (hs w) ->
  version_inv m (hs (snd (handleBlock binder b isRollback isFirstBlock isReplay w))).
Proof.
  intros Hrb Hfirst Hw. unfold handleBlock.
  apply (bind_pres (fun w => version_inv m (hs w))).
  - unfold handleBlock_prelude.
    destruct (isRollback || isReplay && isFirstBlock) eqn:Ec.
    + apply (bind_pres (fun w => version_inv m (hs w))); [exact Hw|].
      intros [] w1 E1 H1. unfold rollbackTo, put, sm_modify in E1. injection E1 as <-.
      apply refreshIndexState_inv; [exact (Hrb eq_refl) | exact H1].
    + unfold sm_bind at 1, get, sm_get. cbn [fst snd].
      destruct ((lastProcessedBlockNumber (hs w) =? 0)
                && String.eqb (lastProcessedBlockHash (hs w)) "") eqn:Ei; [|exact Hw].
      apply andb_true_iff in Ei as [E1 E2].
      apply Z.eqb_eq in E1. apply String.eqb_eq in E2.
      apply refreshIndexState_inv; [exact (Hfirst eq_refl E1 E2) | exact Hw].
  - intros [] w1 _ H1. clear Hrb Hfirst.
    unfold handleBlock_body, sm_bind at 1, get, sm_get. cbv zeta. cbn [fst snd].
    destruct (_ && _); [exact H1|].
    destruct (_ && _); [exact H1|].
    destruct (_ && _); [exact H1|].
    destruct (_ && _); [exact H1|].
    unfold handleWithState.
    apply (bind_pres (fun w => version_inv m (hs w))).
    + apply (bind_pres (fun w => version_inv m (hs w))); [exact H1|].
      intros [] w2 _ H2. apply handleActions_inv. exact H2.
    + intros [] w3 _ H3. exact H3.
Qed.

Lemma insert_versions_keeps (hvs : list (HandlerVersion St)) :
  forall (m m' : gmap string (HandlerVersion St)) (k : string),
  insert_versions m hvs = Some m' -> is_Some (m !! k) -> is_Some (m' !! k).
Proof.
  induction hvs as [|hv hvs IH]; intros m m' k H Hk; cbn in H.
  - injection H as <-. exact Hk.
  - destruct (m !! versionName hv) eqn:E; [discriminate H|].
    apply (IH _ _ k H).
    destruct (String.eq_dec k (versionName hv)) as [->|Hne].
    + rewrite lookup_insert_eq. eexists; reflexivity.
    + rewrite lookup_insert_ne by congruence. exact Hk.
Qed.

Lemma constructor_registered (hvs : list (HandlerVersion St)) (h : HandlerState St) :
  constructor hvs = Ok h -> version_registered h.
Proof.
  unfold constructor. destruct hvs as [|hv0 rest]; [discriminate|].
  destruct (insert_versions ∅ (hv0 :: rest)) as [m|] eqn:E; [|discriminate].
  intros H. injection H as <-. unfold version_registered. cbn -[lookup].
  destruct (m !! "v1"%string) eqn:Ev1.
  - rewrite Ev1. eexists; reflexivity.
  - cbn in E. rewrite lookup_empty in E.
    apply (insert_versions_keeps rest _ _ (versionName hv0) E).
    rewrite lookup_insert_eq. eexists; reflexivity.
Qed.

(** C4 (amended): the constructor registers the active name, and
    [applyUpdaters] and [handleBlock] keep it registered as long as every
    index state [refreshIndexState] loads during the call (the one left by
    [rollbackTo] on a rollback or a replayed first block, the stored one on
    the first load from the initial cursor) names a registered version;
    [refreshIndexState] itself installs the loaded name without checking
    it, so the invariant holds after it exactly when the loaded name is a
    key of the map. *)
Theorem handler_version_registered :
  (forall (hvs : list (HandlerVersion St)) (h : HandlerState St),
     constructor hvs = Ok h -> version_registered h)
  /\ (forall (binder : Binder St) (b : Block) (isReplay : bool) (w : World St),
      version_registered (hs w) ->
      version_registered (hs (snd (applyUpdaters binder b isReplay w))))
  /\ (forall (binder : Binder St) (w : World St),
      version_registered (hs (snd (refreshIndexState binder w)))
      <-> is_Some (handlerVersionMap (hs w)
                     !! is_handlerVersionName (loadIndexState_impl binder (store w))))
  /\ (forall (binder : Binder St) (b : Block) (isRollback isFirstBlock isReplay : bool)
             (w : World St),
      (isRollback || isReplay && isFirstBlock = true ->
       is_Some (handlerVersionMap (hs w)
                  !! is_handlerVersionName
                       (loadIndexState_impl binder
                          (rollbackTo_impl binder (blockNumber (blockInfo b) - 1) (store w))))) ->
      (isRollback || isReplay && isFirstBlock = false ->
       lastProcessedBlockNumber (hs w) = 0 -> lastProcessedBlockHash (hs w) = ""%string ->
       is_Some (handlerVersionMap (hs w)
                  !! is_handlerVersionName (loadIndexState_impl binder (store w)))) ->
      version_registered (hs w) ->
      version_registered (hs (snd (handleBlock binder b isRollback isFirstBlock isReplay w)))).
Proof.
  split; [exact constructor_registered|]. split; [|split].
  - intros binder b isReplay w Hr.
    destruct (apply_actions_inv binder b isReplay (handlerVersionMap (hs w)) (actions b) w
                (conj eq_refl Hr)) as [Hm Hr'].
    unfold version_registered, applyUpdaters. rewrite Hm. exact Hr'.
  - intros binder w.
    unfold refreshIndexState, loadIndexState, sm_bind, get, sm_get, put, sm_modify, sm_ret,
      version_registered.
    cbn -[lookup]. reflexivity.
  - intros binder b isRollback isFirstBlock isReplay w Hrb Hfirst Hr.
    destruct (handleBlock_inv binder b isRollback isFirstBlock isReplay (handlerVersionMap (hs w)) w
                Hrb Hfirst (conj eq_refl Hr)) as [Hm Hr'].
    unfold version_registered. rewrite Hm. exact Hr'.
Qed.

End Facts.

Lemma handleBlock_skips_processed_witness :
  let w := handler_at "v2" "v2" 5 in
  (false = false /\ false && false = false /\
   blockNumber (blockInfo (switch_block 5)) = lastProcessedBlockNumber (hs w) /\
   blockHash (blockInfo (switch_block 5)) = lastProcessedBlockHash (hs w) /\
   ~ (lastProcessedBlockNumber (hs w) = 0 /\ lastProcessedBlockHash (hs w) = ""%string) /\
   handleBlock cursor_binder (switch_block 5) false false false w = (Ok (false, 0), w))
  /\ (true || false && false = true /\
      handleBlock cursor_binder (switch_block 5) true false false w
      = handleBlock_body cursor_binder (switch_block 5) false false
          {| hs := set_handlerVersionName
                     (is_handlerVersionName (loadIndexState_impl cursor_binder
                        (rollbackTo_impl cursor_binder 4 (store w))))
                     (set_lastProcessed
                        (is_blockNumber (loadIndexState_impl cursor_binder
                           (rollbackTo_impl cursor_binder 4 (store w))))
                        (is_blockHash (loadIndexState_impl cursor_binder
                           (rollbackTo_impl cursor_binder 4 (store w))))
                        (hs w));
             store := rollbackTo_impl cursor_binder 4 (store w);
             events := events w ++ [EvRollbackTo 4; EvLoadIndexState] |}).
Proof.
  cbn zeta.
  assert (Hinit : ~ (lastProcessedBlockNumber (hs (handler_at "v2" "v2" 5)) = 0
                     /\ lastProcessedBlockHash (hs (handler_at "v2" "v2" 5)) = ""%string))
    by (cbn; intros [E _]; discriminate E).
  split.
  - split; [reflexivity|]. split; [reflexivity|]. split; [reflexivity|].
    split; [reflexivity|]. split; [exact Hinit|].
    apply (proj1 (handleBlock_skips_processed cursor_binder (switch_block 5) false false false
                    (handler_at "v2" "v2" 5))); [reflexivity | reflexivity | reflexivity
                                                 | reflexivity | exact Hinit].
  - split; [reflexivity|].
    exact (proj2 (handleBlock_skips_processed cursor_binder (switch_block 5) true false false
                    (handler_at "v2" "v2" 5)) eq_refl).
Defined.

Lemma handleActions_effects_only_live_witness :
  let w := handler_at "v2" "v2" 5 in
  (true = true /\
   events_grow_by not_effect_event w (snd (handleActions cursor_binder (switch_block 6) true w)))
  /\ (exists w', handleActions cursor_binder (switch_block 6) false w = (Ok tt, w')
      /\ exists va w1, applyUpdaters cursor_binder (switch_block 6) false w = (Ok va, w1)
        /\ map fst va = actions (switch_block 6)
        /\ events_grow_by not_effect_event w w1
        /\ events w' = events w1
                       ++ effect_runs (handlerVersionMap (hs w1)) va (switch_block 6)
                       ++ [EvUpdateIndexState 6 false (handlerVersionName (hs w1))])
  /\ effect_runs (handlerVersionMap (hs (snd (applyUpdaters cursor_binder (switch_block 6) false w))))
       (match fst (applyUpdaters cursor_binder (switch_block 6) false w) with
        | Ok va => va | Err _ => [] end) (switch_block 6)
     = [EvEffectRun "v2" 0 (mkAction "switch" "p") 6].
Proof.
  cbv zeta. split; [|split].
  - split; [reflexivity|].
    apply (proj1 (handleActions_effects_only_live cursor_binder (switch_block 6) true
                    (handler_at "v2" "v2" 5))). reflexivity.
  - exists (snd (handleActions cursor_binder (switch_block 6) false (handler_at "v2" "v2" 5))).
    split; [vm_compute; reflexivity|].
    apply (proj2 (handleActions_effects_only_live cursor_binder (switch_block 6) false
                    (handler_at "v2" "v2" 5))). vm_compute; reflexivity.
  - vm_compute. reflexivity.
Defined.

Lemma handleBlock_sequence_check_witness :
  let w := handler_at "v2" "v2" 5 in
  handleBlock_prelude cursor_binder (linear_block 7) false false false w = (Ok tt, w) /\
  ((blockNumber (blockInfo (linear_block 7)) <> lastProcessedBlockNumber (hs w) + 1 ->
    handleBlock cursor_binder (linear_block 7) false false false w
      = (Ok (true, lastProcessedBlockNumber (hs w) + 1), w))
   /\ (blockNumber (blockInfo (linear_block 7)) = lastProcessedBlockNumber (hs w) + 1 ->
       previousBlockHash (blockInfo (linear_block 7)) <> lastProcessedBlockHash (hs w) ->
       handleBlock cursor_binder (linear_block 7) false false false w = (Err BlockHashMismatch, w))).
Proof.
  cbn zeta. split; [reflexivity|].
  apply handleBlock_sequence_check; [reflexivity|].
  cbn. intros [E _]. discriminate E.
Defined.

Lemma applyUpdaters_version_switch_witness :
  let w := handler_at "v2" "v2" 5 in
  run_updaters cursor_binder (switch_block 5) false (mkAction "switch" "p")
    (updaters (v1_switching_to "v2")) 0 w =
    (Ok tt,
     {| hs := set_handlerVersionName "v2" (hs w);
        store := updateIndexState_impl cursor_binder (store w) (switch_block 5) false "v2";
        events := events w ++ [EvUpdaterApply (handlerVersionName (hs w)) 0 (mkAction "switch" "p");
                               EvUpdateIndexState 5 false "v2"] |})
  /\ match applyUpdaters cursor_binder (switch_block 5) false w with
     | (Ok va, _) =>
         map fst va = actions (switch_block 5)
         /\ forall i a v, va !! i = Some (a, v) ->
            v = handlerVersionName
                  (hs (snd (apply_actions cursor_binder (switch_block 5) false
                              (take (S i) (actions (switch_block 5))) w)))
     | (Err _, _) => False
     end.
Proof.
  cbn zeta.
  destruct (applyUpdaters_version_switch cursor_binder (switch_block 5) false) as [H1 H2].
  split.
  - apply H1; [reflexivity | reflexivity | discriminate | eexists; reflexivity].
  - destruct (applyUpdaters cursor_binder (switch_block 5) false (handler_at "v2" "v2" 5))
      as [[va|e] w'] eqn:E.
    + exact (H2 _ _ _ E).
    + vm_compute in E. discriminate E.
Defined.

(** C7: a version registered under the empty name, which the constructor
    accepts, can never be switched to: an updater returning "" is ignored,
    because the code tests the returned name for truthiness
    ([if (newVersion && ...)]), so no index write and no switch happen. *)
Lemma applyUpdaters_empty_name_ignored :
  let w := handler_at "" "" 5 in
  (exists h, constructor [v1_switching_to ""; plain_version ""] = Ok h
             /\ handlerVersionMap h = handlerVersionMap (hs w))
  /\ handlerVersionMap (hs w) !! ""%string = Some (plain_version "")
  /\ (let '(r, w') := applyUpdaters cursor_binder (switch_block 6) false w in
      r = Ok [(mkAction "switch" "p", "v1"%string)]
      /\ handlerVersionName (hs w') = "v1"%string
      /\ events w' = [EvUpdaterApply "v1" 0 (mkAction "switch" "p")]).
Proof.
  cbv zeta. split; [eexists; split; [reflexivity | reflexivity]|].
  vm_compute. repeat split.
Qed.

Lemma handler_version_registered_witness :
  (exists h, constructor [v1_switching_to "v2"; plain_version "v2"] = Ok h
             /\ version_registered h)
  /\ version_registered
       (hs (snd (applyUpdaters cursor_binder (switch_block 6) false (handler_at "v2" "v2" 5))))
  /\ (let w := handler_at "v2" "v2" 5 in
      (true || false && false = true ->
       is_Some (handlerVersionMap (hs w)
                  !! is_handlerVersionName
                       (loadIndexState_impl cursor_binder
                          (rollbackTo_impl cursor_binder (blockNumber (blockInfo (switch_block 6)) - 1)
                             (store w)))))
      /\ (true || false && false = false ->
          lastProcessedBlockNumber (hs w) = 0 -> lastProcessedBlockHash (hs w) = ""%string ->
          is_Some (handlerVersionMap (hs w)
                     !! is_handlerVersionName (loadIndexState_impl cursor_binder (store w))))
      /\ version_registered
           (hs (snd (handleBlock cursor_binder (switch_block 6) true false false w)))).
Proof.
  destruct (@handler_version_registered IndexState) as [H1 [H2 [_ H4]]].
  split; [|split].
  - eexists. split; [reflexivity|]. apply (H1 [v1_switching_to "v2"; plain_version "v2"]). reflexivity.
  - apply H2. unfold version_registered. vm_compute. eexists; reflexivity.
  - cbv zeta.
    assert (Hrb : true || false && false = true ->
                  is_Some (handlerVersionMap (hs (handler_at "v2" "v2" 5))
                     !! is_handlerVersionName
                          (loadIndexState_impl cursor_binder
                             (rollbackTo_impl cursor_binder
                                (blockNumber (blockInfo (switch_block 6)) - 1)
                                (store (handler_at "v2" "v2" 5))))))
      by (intros _; vm_compute; eexists; reflexivity).
    assert (Hfirst : true || false && false = false ->
                     lastProcessedBlockNumber (hs (handler_at "v2" "v2" 5)) = 0 ->
                     lastProcessedBlockHash (hs (handler_at "v2" "v2" 5)) = ""%string ->
                     is_Some (handlerVersionMap (hs (handler_at "v2" "v2" 5))
                                !! is_handlerVersionName
                                     (loadIndexState_impl cursor_binder
                                        (store (handler_at "v2" "v2" 5)))))
      by (intros E; discriminate E).
    split; [exact Hrb|]. split; [exact Hfirst|].
    apply H4; [exact Hrb | exact Hfirst |].
    unfold version_registered. vm_compute. eexists; reflexivity.
Defined.

(** C4, counterexample: [refreshIndexState] adopts whatever name the
    persisted index state holds, here "v9", which is not registered. *)
Lemma refreshIndexState_unregistered_counterexample :
  let w := {| hs := hs (handler_at "v2" "v2" 5);
              store := mkIndexState 5 (hash_of 5) "v9";
              events := [] |} in
  version_registered (hs w)
  /\ handlerVersionName (hs (snd (refreshIndexState cursor_binder w))) = "v9"%string
  /\ ~ version_registered (hs (snd (refreshIndexState cursor_binder w))).
Proof.
  cbn zeta. unfold version_registered. split; [|split].
  - vm_compute. eexists; reflexivity.
  - reflexivity.
  - vm_compute. intros [x Hx]. discriminate Hx.
Qed.

End HandlerFacts.

(** ** Reader: fork resolution, seeking and stepping *)

Module ReaderExtra.
Import Reader Fixtures ReaderFixtures ReaderFacts.

Lemma last_removelast {A} (l : list A) (x : A) :
  last l = Some x -> l = removelast l ++ [x].
Proof.
  induction l as [|y [|z l] IH]; cbn; intros H; [discriminate | injection H as ->; reflexivity |].
  f_equal. apply IH. exact H.
Qed.

Lemma resolve_loop_spec (src : ChainSource) (fuel : nat) :
  forall (w : World) (c : Block),
  currentBlockData (rs w) = Some c ->
  (length (blockHistory (rs w)) <= fuel)%nat ->
  exists w', resolve_loop src fuel w = (Ok tt, w')
  /\ (exists dropped, blockHistory (rs w) = blockHistory (rs w') ++ dropped)
  /\ (exists l, calls w' = calls w ++ l
                /\ Forall (fun call => exists n, call = CallGetBlock n) l
                /\ (length l <= length (blockHistory (rs w)))%nat)
  /\ (blockHistory (rs w') = []
      \/ exists b p, currentBlockData (rs w') = Some b
                     /\ last (blockHistory (rs w')) = Some p
                     /\ previousBlockHash (blockInfo b) = blockHash (blockInfo p))
  /\ currentBlockNumber (rs w') = currentBlockNumber (rs w)
  /\ startAtBlock (rs w') = startAtBlock (rs w).
Proof.
  induction fuel as [|fuel IH]; intros w c Hc Hlen.
  - exists w. split; [reflexivity|].
    assert (Hnil : blockHistory (rs w) = []) by (apply length_zero_iff_nil; lia).
    split; [exists []; rewrite app_nil_r; reflexivity|].
    split; [exists []; split; [rewrite app_nil_r; reflexivity | split; [constructor | cbn; lia]]|].
    split; [left; exact Hnil | split; reflexivity].
  - cbn [resolve_loop]. unfold sm_bind at 1, get at 1. cbn [fst snd].
    destruct (last (blockHistory (rs w))) as [prev|] eqn:Elast.
    2:{ exists w. split; [reflexivity|]. apply last_None in Elast.
        split; [exists []; rewrite app_nil_r; reflexivity|].
        split; [exists []; split; [rewrite app_nil_r; reflexivity | split; [constructor | cbn; lia]]|].
        split; [left; exact Elast | split; reflexivity]. }
    rewrite Hc.
    pose proof (last_removelast _ _ Elast) as Hsplit.
    assert (Hl : length (blockHistory (rs w)) = S (length (removelast (blockHistory (rs w))))).
    { rewrite Hsplit at 1. rewrite length_app. cbn. lia. }
    set (b := getBlock_at src (length (calls w)) (blockNumber (blockInfo c))).
    destruct (String.eqb (previousBlockHash (blockInfo b)) (blockHash (blockInfo prev))) eqn:Eq.
    + eexists. split.
      { unfold sm_bind, getBlock, put, sm_ret. cbn. fold b. rewrite Eq. reflexivity. }
      split; [exists []; rewrite app_nil_r; reflexivity|].
      split; [exists [CallGetBlock (blockNumber (blockInfo c))];
              split; [reflexivity | split; [repeat constructor; eexists; reflexivity | cbn; lia]]|].
      split; [|split; reflexivity].
      right. exists b, prev. split; [reflexivity|]. split; [exact Elast|].
      apply String.eqb_eq. exact Eq.
    + set (w2 := {| rs := set_blockHistory (removelast (blockHistory (rs w)))
                           (set_currentBlockData (Some prev)
                              (set_currentBlockData (Some b) (rs w)));
                    calls := calls w ++ [CallGetBlock (blockNumber (blockInfo c))] |}).
      destruct (IH w2 prev eq_refl) as [w' [E [[dr Hdr] [[l [Hcl [Hfl Hll]]] [Hend [Hcn Hst]]]]]].
      { cbn. lia. }
      exists w'. split.
      { unfold sm_bind, getBlock, put, sm_ret. cbn. fold b. rewrite Eq. exact E. }
      split; [exists (dr ++ [prev]); rewrite Hsplit at 1; cbn in Hdr; rewrite Hdr, app_assoc; reflexivity|].
      split; [exists (CallGetBlock (blockNumber (blockInfo c)) :: l);
              split; [rewrite Hcl; cbn; rewrite <- app_assoc; reflexivity|];
              split; [constructor; [eexists; reflexivity | exact Hfl] | cbn in Hll |- *; lia]|].
      split; [exact Hend|]. split; assumption.
Qed.

Lemma resolveFork_err_spec (src : ChainSource) (w w' : World) (e : js_error) :
  resolveFork src w = (Err e, w') ->
  (currentBlockData (rs w) = None /\ e = ForkWithoutCurrentBlock /\ w' = w)
  \/ (e = HistoryExhausted /\ blockHistory (rs w') = []
      /\ (blockHistory (rs w) = [] -> w' = w)).
Proof.
  unfold resolveFork, sm_bind at 1, get at 1. cbn [fst snd].
  destruct (currentBlockData (rs w)) as [c|] eqn:Ec.
  2:{ intros H. injection H as <- <-. left. split; [reflexivity | split; reflexivity]. }
  destruct (resolve_loop_spec src (length (blockHistory (rs w))) w c Ec (le_n _))
    as [w1 [E [_ [_ [Hend _]]]]].
  unfold sm_bind at 1. rewrite E.
  unfold sm_bind at 1, get at 1. cbn [fst snd].
  destruct (length (blockHistory (rs w1)) =? 0)%nat eqn:El.
  - unfold sm_bind, historyExhausted, sm_throw. intros H. injection H as <- <-.
    right. split; [reflexivity|]. split; [apply length_zero_iff_nil, Nat.eqb_eq; exact El|].
    intros Hnil. rewrite Hnil in E. cbn in E. injection E as <-. reflexivity.
  - unfold sm_bind at 1, sm_ret at 1. cbn [fst snd].
    unfold sm_bind at 1, get at 1. cbn [fst snd].
    destruct Hend as [Hnil|[b [p [_ [Hp _]]]]].
    + rewrite Hnil in El. discriminate El.
    + rewrite Hp. unfold put. discriminate.
Qed.

Lemma resolveFork_ok_spec (src : ChainSource) (w w' : World) :
  resolveFork src w = (Ok tt, w') ->
  (exists b p, currentBlockData (rs w') = Some b
               /\ last (blockHistory (rs w')) = Some p
               /\ previousBlockHash (blockInfo b) = blockHash (blockInfo p)
               /\ currentBlockNumber (rs w') = blockNumber (blockInfo p) + 1)
  /\ (exists dropped, blockHistory (rs w) = blockHistory (rs w') ++ dropped)
  /\ (exists l, calls w' = calls w ++ l
                /\ Forall (fun call => exists n, call = CallGetBlock n) l
                /\ (length l <= length (blockHistory (rs w)))%nat).
Proof.
  unfold resolveFork, sm_bind at 1, get at 1. cbn [fst snd].
  destruct (currentBlockData (rs w)) as [c|] eqn:Ec; [|discriminate].
  destruct (resolve_loop_spec src (length (blockHistory (rs w))) w c Ec (le_n _))
    as [w1 [E [Hdr [Hcl [Hend _]]]]].
  unfold sm_bind at 1. rewrite E.
  unfold sm_bind at 1, get at 1. cbn [fst snd].
  destruct (length (blockHistory (rs w1)) =? 0)%nat eqn:El; [discriminate|].
  unfold sm_bind at 1, sm_ret at 1. cbn [fst snd].
  unfold sm_bind at 1, get at 1. cbn [fst snd].
  destruct Hend as [Hnil|[b [p [Hb [Hp Hh]]]]]; [rewrite Hnil in El; discriminate El|].
  rewrite Hp. unfold put. intros H. injection H as <-. cbn.
  split; [exists b, p; repeat split; assumption|]. split; assumption.
Qed.

(** [seekToBlock(1)], when [startAtBlock <= 1], empties the history, sets
    [currentBlockNumber] to 0 and leaves no current block, without calling
    the chain. *)
Theorem seekToBlock_first_block (src : ChainSource) (w : World) :
  startAtBlock (rs w) <= 1 ->
  seekToBlock src 1 w =
    (Ok tt, {| rs := set_currentBlockNumber 0
                       (set_blockHistory []
                          (set_headBlockNumber 0 (set_currentBlockData None (rs w))));
               calls := calls w |}).
Proof.
  intros Hs. unfold seekToBlock, sm_bind, get, put, sm_ret. cbn.
  replace (1 <? startAtBlock (rs w)) with false by (symmetry; apply Z.ltb_ge; exact Hs).
  reflexivity.
Qed.

(** When the history is empty or its newest entry is the target block,
    [seekToBlock(n)] (for [n >= startAtBlock], [n <> 1]) keeps the history
    and loads [getBlock(n - 1)] as the current block, with
    [currentBlockNumber = n - 1]. *)
Theorem seekToBlock_fetches_predecessor (src : ChainSource) (w : World) (n : Z) :
  startAtBlock (rs w) <= n -> n <> 1 ->
  (blockHistory (rs w) = []
   \/ exists older b, blockHistory (rs w) = older ++ [b] /\ blockNumber (blockInfo b) = n) ->
  seekToBlock src n w =
    (Ok tt, {| rs := set_currentBlockData (Some (getBlock_at src (length (calls w)) (n - 1)))
                       (set_currentBlockNumber (n - 1)
                          (set_headBlockNumber 0 (set_currentBlockData None (rs w))));
               calls := calls w ++ [CallGetBlock (n - 1)] |}).
Proof.
  intros Hs Hn1 Hh.
  assert (Hscan : scan_history (rev (blockHistory (rs w))) n (-1) = -1).
  { destruct Hh as [-> | [older [b [-> Hb]]]]; [reflexivity|].
    rewrite rev_unit. cbn. rewrite Hb, Z.eqb_refl. reflexivity. }
  unfold seekToBlock, sm_bind, get, put, sm_ret, getBlock. cbn.
  replace (n <? startAtBlock (rs w)) with false by (symmetry; apply Z.ltb_ge; exact Hs).
  replace (n =? 1) with false by (symmetry; apply Z.eqb_neq; exact Hn1).
  rewrite Hscan. reflexivity.
Qed.

(** After [seekToBlock(n)] returns, [currentBlockNumber] is [n - 1] and the
    head is unknown (0), and for [n <> 1] a current block is loaded.  The
    method never asks for the head block number and issues at most one
    call, [getBlock(n - 1)], whether it returns or throws. *)
Theorem seekToBlock_outcome (src : ChainSource) (w : World) (n : Z) :
  (fst (seekToBlock src n w) = Ok tt ->
   currentBlockNumber (rs (snd (seekToBlock src n w))) = n - 1
   /\ headBlockNumber (rs (snd (seekToBlock src n w))) = 0
   /\ (n <> 1 -> currentBlockData (rs (snd (seekToBlock src n w))) <> None))
  /\ (calls (snd (seekToBlock src n w)) = calls w
      \/ calls (snd (seekToBlock src n w)) = calls w ++ [CallGetBlock (n - 1)]).
Proof.
  unfold seekToBlock, sm_bind, get, put, sm_throw, sm_ret, getBlock, pop, splice_from. cbn.
  destruct (n <? startAtBlock (rs w)); cbn.
  { split; [discriminate | left; reflexivity]. }
  destruct (n =? 1) eqn:E1; cbn.
  { apply Z.eqb_eq in E1. subst n. split; [|left; reflexivity].
    intros _. split; [reflexivity|]. split; [reflexivity|]. intros H; contradiction. }
  repeat case_match; simplify_eq/=.
  all: (split; [intros _; split; [reflexivity|]; split; [reflexivity | intros _; congruence]
           | first [left; reflexivity | right; reflexivity]]).
Qed.

(** On the head block ([currentBlockNumber = headBlockNumber >= 0]) with a
    current block, when the chain head has not moved past it, [nextBlock]
    only asks for the head, clears the prefetch buffer, and returns the
    same current block with [isRollback = false] and [isNewBlock = false]. *)
Theorem nextBlock_at_head (src : ChainSource) (w : World) (cur : Block) :
  currentBlockNumber (rs w) = headBlockNumber (rs w) ->
  0 <= currentBlockNumber (rs w) ->
  currentBlockData (rs w) = Some cur ->
  getHeadBlockNumber_at src (length (calls w)) <= currentBlockNumber (rs w) ->
  nextBlock src w =
    (Ok (cur, false, false),
     {| rs := set_isFirstBlock (currentBlockNumber (rs w) =? startAtBlock (rs w))
                (set_index 0 (set_tmpBlocks []
                   (set_headBlockNumber (getHeadBlockNumber_at src (length (calls w))) (rs w))));
        calls := calls w ++ [CallGetHeadBlockNumber] |}).
Proof.
  intros Heq Hpos Hcur Hhead.
  set (h := getHeadBlockNumber_at src (length (calls w))).
  set (s1 := set_index 0 (set_tmpBlocks [] (set_headBlockNumber h (rs w)))).
  assert (E1 : head_refresh src w = (Ok tt, {| rs := s1; calls := calls w ++ [CallGetHeadBlockNumber] |})).
  { unfold head_refresh, sm_bind, get, put, getHeadBlockNumber. cbn [rs calls fst snd].
    rewrite Heq, Z.eqb_refl. reflexivity. }
  assert (E2 : tail_resolution {| rs := s1; calls := calls w ++ [CallGetHeadBlockNumber] |}
               = (Ok tt, {| rs := s1; calls := calls w ++ [CallGetHeadBlockNumber] |})).
  { unfold tail_resolution, sm_bind, get, sm_ret. cbn [rs calls fst snd].
    replace (currentBlockNumber s1 <? 0) with false
      by (symmetry; apply Z.ltb_ge; exact Hpos). reflexivity. }
  assert (E3 : advance src {| rs := s1; calls := calls w ++ [CallGetHeadBlockNumber] |}
               = (Ok (false, false), {| rs := s1; calls := calls w ++ [CallGetHeadBlockNumber] |})).
  { unfold advance, sm_bind at 1, get. cbn [rs calls fst snd].
    replace (currentBlockNumber s1 <? headBlockNumber s1) with false
      by (symmetry; apply Z.ltb_ge; exact Hhead). reflexivity. }
  unfold nextBlock. unfold sm_bind at 1. rewrite E1.
  unfold sm_bind at 1. rewrite E2.
  unfold sm_bind at 1. rewrite E3.
  unfold sm_bind, put, get, sm_ret. cbn [rs calls fst snd].
  assert (Ec : currentBlockData (set_isFirstBlock (currentBlockNumber s1 =? startAtBlock s1) s1)
               = Some cur) by exact Hcur.
  rewrite Ec. reflexivity.
Qed.

(** Behind the head with a prefetched block at [index] that links to the
    current block (or with an empty history), [nextBlock] makes no call:
    it pushes the current block onto the history, trims the history to
    [maxHistoryLength], makes the prefetched block current, advances
    [index], and returns it with [isRollback = false], [isNewBlock = true]. *)
Theorem nextBlock_linked_advance (src : ChainSource) (w : World) (cur b : Block) :
  currentBlockNumber (rs w) <> headBlockNumber (rs w) ->
  headBlockNumber (rs w) <> 0 ->
  0 <= currentBlockNumber (rs w) < headBlockNumber (rs w) ->
  tmpBlocks (rs w) <> [] ->
  nth_error (tmpBlocks (rs w)) (Z.to_nat (index (rs w))) = Some b ->
  currentBlockData (rs w) = Some cur ->
  previousBlockHash (blockInfo b) = blockHash (blockInfo cur) \/ blockHistory (rs w) = [] ->
  let '(r, w') := nextBlock src w in
  r = Ok (b, false, true) /\ calls w' = calls w
  /\ blockHistory (rs w')
     = splice_front (blockHistory (rs w) ++ [cur])
         (Z.of_nat (length (blockHistory (rs w) ++ [cur])) - maxHistoryLength (rs w))
  /\ currentBlockData (rs w') = Some b
  /\ currentBlockNumber (rs w') = blockNumber (blockInfo b)
  /\ index (rs w') = index (rs w) + 1
  /\ tmpBlocks (rs w') = tmpBlocks (rs w)
  /\ headBlockNumber (rs w') = headBlockNumber (rs w)
  /\ isFirstBlock (rs w') = (blockNumber (blockInfo b) =? startAtBlock (rs w)).
Proof.
  intros Hne Hh0 [Hpos Hlt] Htmp Hnth Hcur Hlink.
  assert (E1 : head_refresh src w = (Ok tt, w)).
  { unfold head_refresh, sm_bind, get, sm_ret.
    replace (currentBlockNumber (rs w) =? headBlockNumber (rs w)) with false
      by (symmetry; apply Z.eqb_neq; exact Hne).
    replace (headBlockNumber (rs w) =? 0) with false
      by (symmetry; apply Z.eqb_neq; exact Hh0). reflexivity. }
  assert (E2 : tail_resolution w = (Ok tt, w)).
  { unfold tail_resolution, sm_bind, get, sm_ret.
    replace (currentBlockNumber (rs w) <? 0) with false
      by (symmetry; apply Z.ltb_ge; exact Hpos). reflexivity. }
  assert (Ep : prefetch src w = (Ok tt, w)).
  { unfold prefetch, sm_bind, get, sm_ret.
    destruct (tmpBlocks (rs w)) eqn:Et; [contradiction | reflexivity]. }
  assert (Hcond : String.eqb (blockHash (blockInfo cur)) (previousBlockHash (blockInfo b))
                  || (length (blockHistory (rs w)) =? 0)%nat = true).
  { destruct Hlink as [Hl|Hl].
    - rewrite Hl, String.eqb_refl. reflexivity.
    - rewrite Hl. apply orb_true_r. }
  unfold nextBlock. unfold sm_bind at 1. rewrite E1.
  unfold sm_bind at 1. rewrite E2.
  unfold sm_bind at 1. unfold advance at 1. unfold sm_bind at 1, get at 1. cbn [fst snd].
  replace (currentBlockNumber (rs w) <? headBlockNumber (rs w)) with true
    by (symmetry; apply Z.ltb_lt; exact Hlt).
  unfold sm_bind at 1. rewrite Ep.
  unfold sm_bind at 1, get at 1. cbn [fst snd].
  unfold sm_bind at 1, put at 1. cbn [fst snd].
  rewrite Hnth, Hcur. cbn zeta. rewrite Hcond.
  unfold sm_bind, put, get, sm_ret. cbn.
  rewrite Hcur. repeat split.
Qed.

(** [resolveFork] throws before any change when there is no current
    block; with a current block but an empty history it throws
    [HistoryExhausted] before any call; and whenever it throws
    [HistoryExhausted] the history it leaves is empty. *)
Theorem resolveFork_error_cases (src : ChainSource) (w : World) :
  (currentBlockData (rs w) = None -> resolveFork src w = (Err ForkWithoutCurrentBlock, w))
  /\ (currentBlockData (rs w) <> None -> blockHistory (rs w) = [] ->
      resolveFork src w = (Err HistoryExhausted, w))
  /\ (forall w', resolveFork src w = (Err HistoryExhausted, w') -> blockHistory (rs w') = []).
Proof.
  split; [|split].
  - intros Hc. unfold resolveFork, sm_bind at 1, get at 1, sm_get. cbn [fst snd].
    rewrite Hc. reflexivity.
  - intros Hc Hh.
    destruct (currentBlockData (rs w)) as [c|] eqn:Ec; [|contradiction].
    destruct (resolve_loop_spec src (length (blockHistory (rs w))) w c Ec (le_n _))
      as [w1 [E [Hpre _]]].
    destruct Hpre as [dropped Hd].
    unfold resolveFork, sm_bind at 1, get at 1, sm_get. cbn [fst snd]. rewrite Ec.
    unfold sm_bind at 1. rewrite E.
    rewrite Hh in E. cbn in E. injection E as <-.
    unfold sm_bind at 1, get at 1, sm_get. cbn [fst snd]. rewrite Hh. cbn.
    reflexivity.
  - intros w' H.
    destruct (resolveFork_err_spec src w w' HistoryExhausted H) as [[_ [E _]] | [_ [Hh _]]];
      [discriminate E | exact Hh].
Qed.

(** When [resolveFork] returns, the reader has kept a prefix of its
    history that is not empty, its current block's previous hash is the
    hash of the newest kept entry, and
    [currentBlockNumber] is one past that entry; on the way it issued only
    [getBlock] calls, at most one per history entry. *)
Theorem resolveFork_success (src : ChainSource) (w w' : World) :
  resolveFork src w = (Ok tt, w') ->
  (exists b p, currentBlockData (rs w') = Some b
               /\ last (blockHistory (rs w')) = Some p
               /\ previousBlockHash (blockInfo b) = blockHash (blockInfo p)
               /\ currentBlockNumber (rs w') = blockNumber (blockInfo p) + 1)
  /\ (exists dropped, blockHistory (rs w) = blockHistory (rs w') ++ dropped)
  /\ (exists l, calls w' = calls w ++ l
                /\ Forall (fun call => exists n, call = CallGetBlock n) l
                /\ (length l <= length (blockHistory (rs w)))%nat).
Proof. apply resolveFork_ok_spec. Qed.

Lemma nextBlock_fork_cases (src : ChainSource) (w : World) (cur b : Block) :
  currentBlockNumber (rs w) <> headBlockNumber (rs w) ->
  headBlockNumber (rs w) <> 0 ->
  0 <= currentBlockNumber (rs w) < headBlockNumber (rs w) ->
  tmpBlocks (rs w) <> [] ->
  nth_error (tmpBlocks (rs w)) (Z.to_nat (index (rs w))) = Some b ->
  currentBlockData (rs w) = Some cur ->
  previousBlockHash (blockInfo b) <> blockHash (blockInfo cur) ->
  blockHistory (rs w) <> [] ->
  let '(r, w') := nextBlock src w in
  match r with
  | Ok (_, isRollback, isNewBlock) =>
      isRollback = true /\ isNewBlock = true
      /\ (exists dropped, blockHistory (rs w) = blockHistory (rs w') ++ dropped)
      /\ exists l, calls w' = calls w ++ l ++ [CallGetHeadBlockNumber]
                   /\ headBlockNumber (rs w') = getHeadBlockNumber_at src (length (calls w ++ l))
  | Err e => e = HistoryExhausted
  end.
Proof.
  intros Hne Hh0 [Hpos Hlt] Htmp Hnth Hcur Hlink Hhist.
  assert (E1 : head_refresh src w = (Ok tt, w)).
  { unfold head_refresh, sm_bind, get, sm_ret.
    replace (currentBlockNumber (rs w) =? headBlockNumber (rs w)) with false
      by (symmetry; apply Z.eqb_neq; exact Hne).
    replace (headBlockNumber (rs w) =? 0) with false
      by (symmetry; apply Z.eqb_neq; exact Hh0). reflexivity. }
  assert (E2 : tail_resolution w = (Ok tt, w)).
  { unfold tail_resolution, sm_bind, get, sm_ret.
    replace (currentBlockNumber (rs w) <? 0) with false
      by (symmetry; apply Z.ltb_ge; exact Hpos). reflexivity. }
  assert (Ep : prefetch src w = (Ok tt, w)).
  { unfold prefetch, sm_bind, get, sm_ret.
    destruct (tmpBlocks (rs w)) eqn:Et; [contradiction | reflexivity]. }
  assert (Hcond : String.eqb (blockHash (blockInfo cur)) (previousBlockHash (blockInfo b))
                  || (length (blockHistory (rs w)) =? 0)%nat = false).
  { apply orb_false_iff. split.
    - apply String.eqb_neq. intros E. apply Hlink. symmetry. exact E.
    - apply Nat.eqb_neq. intros E. apply Hhist, length_zero_iff_nil. exact E. }
  unfold nextBlock. unfold sm_bind at 1. rewrite E1.
  unfold sm_bind at 1. rewrite E2.
  unfold sm_bind at 1. unfold advance at 1. unfold sm_bind at 1, get at 1. cbn [fst snd].
  replace (currentBlockNumber (rs w) <? headBlockNumber (rs w)) with true
    by (symmetry; apply Z.ltb_lt; exact Hlt).
  unfold sm_bind at 1. rewrite Ep.
  unfold sm_bind at 1, get at 1. cbn [fst snd].
  unfold sm_bind at 1, put at 1. cbn [fst snd].
  rewrite Hnth, Hcur. cbn zeta. rewrite Hcond.
  set (w2 := {| rs := set_index (index (rs w) + 1) (rs w); calls := calls w |}).
  unfold sm_bind at 1.
  destruct (resolveFork src w2) as [[[]|e] w3] eqn:Ef.
  2:{ cbn [fst snd].
      destruct (resolveFork_err_spec src w2 w3 e Ef) as [[Hn _]|[He _]]; [|exact He].
      cbn in Hn. rewrite Hcur in Hn. discriminate Hn. }
  destruct (resolveFork_ok_spec src w2 w3 Ef) as [[b' [p [Hb' _]]] [[dr Hdr] [l [Hl _]]]].
  unfold sm_bind, getHeadBlockNumber, put, get, sm_ret. cbn [rs calls fst snd].
  cbn [currentBlockData set_isFirstBlock set_headBlockNumber].
  rewrite Hb'. cbn.
  split; [reflexivity|]. split; [reflexivity|].
  split; [exists dr; exact Hdr|].
  exists l. cbn in Hl. rewrite Hl. split; [rewrite <- app_assoc; reflexivity | reflexivity].
Qed.

(** Behind the head with a prefetched block at [index] that does not link
    to the current block while the history is not empty, [nextBlock] runs
    fork resolution and then asks for the head again: when it returns, it
    reports [isRollback = true] and [isNewBlock = true], its history is cut
    back to a prefix of the old one and the head is the one its last call
    returned. *)
Theorem nextBlock_fork (src : ChainSource) (w : World) (cur b : Block) :
  currentBlockNumber (rs w) <> headBlockNumber (rs w) ->
  headBlockNumber (rs w) <> 0 ->
  0 <= currentBlockNumber (rs w) < headBlockNumber (rs w) ->
  tmpBlocks (rs w) <> [] ->
  nth_error (tmpBlocks (rs w)) (Z.to_nat (index (rs w))) = Some b ->
  currentBlockData (rs w) = Some cur ->
  previousBlockHash (blockInfo b) <> blockHash (blockInfo cur) ->
  blockHistory (rs w) <> [] ->
  forall res w', nextBlock src w = (Ok res, w') ->
  let '(_, isRollback, isNewBlock) := res in
  isRollback = true /\ isNewBlock = true
  /\ (exists dropped, blockHistory (rs w) = blockHistory (rs w') ++ dropped)
  /\ exists l, calls w' = calls w ++ l ++ [CallGetHeadBlockNumber]
               /\ headBlockNumber (rs w') = getHeadBlockNumber_at src (length (calls w ++ l)).
Proof.
  intros H1 H2 H3 H4 H5 H6 H7 H8 res w' Hn.
  pose proof (nextBlock_fork_cases src w cur b H1 H2 H3 H4 H5 H6 H7 H8) as H.
  rewrite Hn in H. destruct res as [[blk isRollback] isNewBlock]. exact H.
Qed.

Lemma resolveFork_error_cases_witness :
  let w0 := {| rs := reader_at 5 7 [linear_block 4] [] None; calls := [] |} in
  let w1 := {| rs := reader_at 5 7 [] [] (Some (linear_block 5)); calls := [] |} in
  (currentBlockData (rs w0) = None
   /\ resolveFork (linear_chain 7) w0 = (Err ForkWithoutCurrentBlock, w0))
  /\ (currentBlockData (rs w1) <> None /\ blockHistory (rs w1) = []
      /\ resolveFork (linear_chain 7) w1 = (Err HistoryExhausted, w1))
  /\ (let w2 := {| rs := reader_at 5 7 [forked_block 4] [] (Some (linear_block 5)); calls := [] |} in
      resolveFork (linear_chain 7) w2 = (Err HistoryExhausted, snd (resolveFork (linear_chain 7) w2))
      /\ blockHistory (rs (snd (resolveFork (linear_chain 7) w2))) = []).
Proof.
  cbv zeta. split; [|split].
  - split; [reflexivity|].
    apply (proj1 (resolveFork_error_cases (linear_chain 7) _)). reflexivity.
  - split; [discriminate|]. split; [reflexivity|].
    apply (proj1 (proj2 (resolveFork_error_cases (linear_chain 7) _))); [discriminate | reflexivity].
  - split; [vm_compute; reflexivity|].
    apply (proj2 (proj2 (resolveFork_error_cases (linear_chain 7)
             {| rs := reader_at 5 7 [forked_block 4] [] (Some (linear_block 5)); calls := [] |}))).
    vm_compute; reflexivity.
Defined.

Lemma resolveFork_success_witness :
  let w := {| rs := reader_at 3 3 [linear_block 1; linear_block 2] [] (Some (forked_block 3));
              calls := [] |} in
  exists w', resolveFork (linear_chain 7) w = (Ok tt, w') /\
  ((exists b p, currentBlockData (rs w') = Some b
               /\ last (blockHistory (rs w')) = Some p
               /\ previousBlockHash (blockInfo b) = blockHash (blockInfo p)
               /\ currentBlockNumber (rs w') = blockNumber (blockInfo p) + 1)
  /\ (exists dropped, blockHistory (rs w) = blockHistory (rs w') ++ dropped)
  /\ (exists l, calls w' = calls w ++ l
                /\ Forall (fun call => exists n, call = CallGetBlock n) l
                /\ (length l <= length (blockHistory (rs w)))%nat)).
Proof.
  cbv zeta. eexists. split; [reflexivity|].
  apply (resolveFork_success (linear_chain 7)). reflexivity.
Defined.

Lemma seekToBlock_first_block_witness :
  let w := {| rs := reader_at 5 7 [linear_block 4] [] (Some (linear_block 5)); calls := [] |} in
  startAtBlock (rs w) <= 1 /\
  seekToBlock (linear_chain 7) 1 w =
    (Ok tt, {| rs := set_currentBlockNumber 0
                       (set_blockHistory []
                          (set_headBlockNumber 0 (set_currentBlockData None (rs w))));
               calls := calls w |}).
Proof.
  cbv zeta. split; [cbn; lia|].
  apply (seekToBlock_first_block (linear_chain 7)). cbn. lia.
Defined.

Lemma seekToBlock_fetches_predecessor_witness :
  let w := {| rs := reader_at 2 7 [linear_block 1; linear_block 2] [] (Some (linear_block 3));
              calls := [] |} in
  startAtBlock (rs w) <= 2 /\ 2 <> 1 /\
  (blockHistory (rs w) = []
   \/ exists older b, blockHistory (rs w) = older ++ [b] /\ blockNumber (blockInfo b) = 2) /\
  seekToBlock (linear_chain 7) 2 w =
    (Ok tt, {| rs := set_currentBlockData (Some (getBlock_at (linear_chain 7) (length (calls w)) (2 - 1)))
                       (set_currentBlockNumber (2 - 1)
                          (set_headBlockNumber 0 (set_currentBlockData None (rs w))));
               calls := calls w ++ [CallGetBlock (2 - 1)] |}).
Proof.
  cbv zeta.
  assert (Hh : blockHistory (rs {| rs := reader_at 2 7 [linear_block 1; linear_block 2] []
                                          (Some (linear_block 3)); calls := [] |}) = []
               \/ exists older b, blockHistory (rs {| rs := reader_at 2 7 [linear_block 1; linear_block 2] []
                                          (Some (linear_block 3)); calls := [] |}) = older ++ [b]
                                  /\ blockNumber (blockInfo b) = 2).
  { right. exists [linear_block 1], (linear_block 2). split; reflexivity. }
  split; [cbn; lia|]. split; [lia|]. split; [exact Hh|].
  apply (seekToBlock_fetches_predecessor (linear_chain 7)); [cbn; lia | lia | exact Hh].
Defined.

Lemma nextBlock_at_head_witness :
  let w := {| rs := reader_at 5 5 [linear_block 4] [] (Some (linear_block 5)); calls := [] |} in
  currentBlockNumber (rs w) = headBlockNumber (rs w) /\
  0 <= currentBlockNumber (rs w) /\
  currentBlockData (rs w) = Some (linear_block 5) /\
  getHeadBlockNumber_at (linear_chain 5) (length (calls w)) <= currentBlockNumber (rs w) /\
  nextBlock (linear_chain 5) w =
    (Ok (linear_block 5, false, false),
     {| rs := set_isFirstBlock (currentBlockNumber (rs w) =? startAtBlock (rs w))
                (set_index 0 (set_tmpBlocks []
                   (set_headBlockNumber (getHeadBlockNumber_at (linear_chain 5) (length (calls w))) (rs w))));
        calls := calls w ++ [CallGetHeadBlockNumber] |}).
Proof.
  cbv zeta. split; [reflexivity|]. split; [cbn; lia|]. split; [reflexivity|].
  split; [cbn; lia|].
  apply (nextBlock_at_head (linear_chain 5) _ (linear_block 5)); [reflexivity | cbn; lia | reflexivity | cbn; lia].
Defined.

Lemma nextBlock_linked_advance_witness :
  let w := {| rs := reader_at 5 7 [linear_block 4] [linear_block 6; linear_block 7]
                      (Some (linear_block 5));
              calls := [] |} in
  currentBlockNumber (rs w) <> headBlockNumber (rs w) /\
  headBlockNumber (rs w) <> 0 /\
  0 <= currentBlockNumber (rs w) < headBlockNumber (rs w) /\
  tmpBlocks (rs w) <> [] /\
  nth_error (tmpBlocks (rs w)) (Z.to_nat (index (rs w))) = Some (linear_block 6) /\
  currentBlockData (rs w) = Some (linear_block 5) /\
  (previousBlockHash (blockInfo (linear_block 6)) = blockHash (blockInfo (linear_block 5))
   \/ blockHistory (rs w) = []) /\
  let '(r, w') := nextBlock (linear_chain 7) w in
  r = Ok (linear_block 6, false, true) /\ calls w' = calls w
  /\ blockHistory (rs w')
     = splice_front (blockHistory (rs w) ++ [linear_block 5])
         (Z.of_nat (length (blockHistory (rs w) ++ [linear_block 5])) - maxHistoryLength (rs w))
  /\ currentBlockData (rs w') = Some (linear_block 6)
  /\ currentBlockNumber (rs w') = blockNumber (blockInfo (linear_block 6))
  /\ index (rs w') = index (rs w) + 1
  /\ tmpBlocks (rs w') = tmpBlocks (rs w)
  /\ headBlockNumber (rs w') = headBlockNumber (rs w)
  /\ isFirstBlock (rs w') = (blockNumber (blockInfo (linear_block 6)) =? startAtBlock (rs w)).
Proof.
  cbv zeta. split; [cbn; lia|]. split; [cbn; lia|]. split; [cbn; lia|].
  split; [discriminate|]. split; [reflexivity|]. split; [reflexivity|].
  split; [left; reflexivity|].
  apply (nextBlock_linked_advance (linear_chain 7) _ (linear_block 5) (linear_block 6)); [cbn; lia | cbn; lia | cbn; lia | discriminate
    | reflexivity | reflexivity | left; reflexivity].
Defined.

Lemma nextBlock_fork_witness :
  let w := {| rs := reader_at 5 7 [linear_block 4] [forked_block 6] (Some (linear_block 5));
              calls := [] |} in
  currentBlockNumber (rs w) <> headBlockNumber (rs w) /\
  headBlockNumber (rs w) <> 0 /\
  0 <= currentBlockNumber (rs w) < headBlockNumber (rs w) /\
  tmpBlocks (rs w) <> [] /\
  nth_error (tmpBlocks (rs w)) (Z.to_nat (index (rs w))) = Some (forked_block 6) /\
  currentBlockData (rs w) = Some (linear_block 5) /\
  previousBlockHash (blockInfo (forked_block 6)) <> blockHash (blockInfo (linear_block 5)) /\
  blockHistory (rs w) <> [] /\
  exists res w', nextBlock (linear_chain 7) w = (Ok res, w') /\
  let '(_, isRollback, isNewBlock) := res in
  isRollback = true /\ isNewBlock = true
  /\ (exists dropped, blockHistory (rs w) = blockHistory (rs w') ++ dropped)
  /\ exists l, calls w' = calls w ++ l ++ [CallGetHeadBlockNumber]
               /\ headBlockNumber (rs w') = getHeadBlockNumber_at (linear_chain 7) (length (calls w ++ l)).
Proof.
  cbv zeta. split; [cbn; lia|]. split; [cbn; lia|]. split; [cbn; lia|].
  split; [discriminate|]. split; [reflexivity|]. split; [reflexivity|].
  split; [discriminate|]. split; [discriminate|].
  exists (linear_block 5, true, true).
  exists (snd (nextBlock (linear_chain 7)
                 {| rs := reader_at 5 7 [linear_block 4] [forked_block 6] (Some (linear_block 5));
                    calls := [] |})).
  split; [vm_compute; reflexivity|].
  refine (nextBlock_fork (linear_chain 7) _ (linear_block 5) (forked_block 6)
            _ _ _ _ _ _ _ _ (linear_block 5, true, true) _ _);
    [cbn; lia | cbn; lia | cbn; lia | discriminate | reflexivity | reflexivity
    | discriminate | discriminate | vm_compute; reflexivity].
Defined.

End ReaderExtra.

(** ** Handler: construction, updaters, effects and block handling *)

Module HandlerExtra.
Import Handler Fixtures HandlerFixtures HandlerFacts.

Section Extra.
Context {St : Type}.



Lemma insert_versions_lookup (hvs : list (HandlerVersion St)) :
  forall (m m' : gmap string (HandlerVersion St)),
  insert_versions m hvs = Some m' ->
  forall k v, m' !! k = Some v <-> m !! k = Some v \/ (v ∈ hvs /\ versionName v = k).
Proof.
  induction hvs as [|hv hvs IH]; intros m m' H k v; cbn [insert_versions] in H.
  - injection H as <-. split; [left; exact H|]. intros [H|[Hin _]]; [exact H|].
    apply elem_of_nil in Hin. contradiction.
  - destruct (m !! versionName hv) eqn:E; [discriminate H|].
    rewrite (IH _ _ H k v), elem_of_cons.
    destruct (String.eq_dec k (versionName hv)) as [->|Hne].
    + rewrite lookup_insert_eq, E. split.
      * intros [Hv|Hv]; [injection Hv as <-; right; split; [left|]; reflexivity|].
        right. destruct Hv as [Hv Hn]. split; [right; exact Hv | exact Hn].
      * intros [Hv|[[<-|Hv] Hn]]; [discriminate Hv | left; reflexivity |].
        right. split; assumption.
    + rewrite lookup_insert_ne by congruence. split.
      * intros [Hv|[Hv Hn]]; [left; exact Hv | right; split; [right; exact Hv | exact Hn]].
      * intros [Hv|[[<-|Hv] Hn]]; [left; exact Hv | congruence |].
        right. split; assumption.
Qed.

Lemma constructor_lookup (hvs : list (HandlerVersion St)) (h : HandlerState St) :
  constructor hvs = Ok h ->
  forall k v, handlerVersionMap h !! k = Some v <-> v ∈ hvs /\ versionName v = k.
Proof.
  unfold constructor. destruct hvs as [|hv0 rest]; [discriminate|].
  destruct (insert_versions ∅ (hv0 :: rest)) as [m|] eqn:E; [|discriminate].
  intros H. injection H as <-. intros k v. cbn -[lookup].
  rewrite (insert_versions_lookup _ _ _ E k v), lookup_empty.
  split; [intros [H|H]; [discriminate H | exact H] | intros H; right; exact H].
Qed.



(** The starting version is "v1" when some version has that name, and the
    first version of the list otherwise. *)
Theorem constructor_default_version (hv0 : HandlerVersion St) (rest : list (HandlerVersion St))
    (h : HandlerState St) :
  constructor (hv0 :: rest) = Ok h ->
  ("v1"%string ∈ map versionName (hv0 :: rest) -> handlerVersionName h = "v1"%string)
  /\ ("v1"%string ∉ map versionName (hv0 :: rest) -> handlerVersionName h = versionName hv0).
Proof.
  intros H. pose proof (constructor_lookup _ _ H "v1"%string) as Hl.
  revert H Hl. unfold constructor.
  destruct (insert_versions ∅ (hv0 :: rest)) as [m|]; [|discriminate].
  intros H. injection H as <-. cbn -[lookup]. intros Hl.
  destruct (m !! "v1"%string) as [v|] eqn:Ev.
  - split; [reflexivity|]. intros Hni. exfalso. apply Hni.
    destruct (proj1 (Hl v) eq_refl) as [Hv Hn].
    change ("v1"%string ∈ map versionName (hv0 :: rest)).
    rewrite <- Hn. apply (list_elem_of_fmap_2 versionName). exact Hv.
  - split; [|reflexivity]. intros Hin. exfalso.
    change ("v1"%string ∈ map versionName (hv0 :: rest)) in Hin.
    apply list_elem_of_fmap_1 in Hin as [x [Hx Hxin]].
    assert (Hs : None = Some x) by (apply Hl; split; [exact Hxin | symmetry; exact Hx]).
    discriminate Hs.
Qed.


Lemma run_updaters_frame (binder : Binder St) (b : Block) (isReplay : bool) (a : Action)
    (ups : list (Updater.t St)) :
  forall idx (w : World St), exists w',
  run_updaters binder b isReplay a ups idx w = (Ok tt, w')
  /\ lastProcessedBlockNumber (hs w') = lastProcessedBlockNumber (hs w)
  /\ lastProcessedBlockHash (hs w') = lastProcessedBlockHash (hs w)
  /\ handlerVersionMap (hs w') = handlerVersionMap (hs w).
Proof.
  induction ups as [|u ups IH]; intros idx w; cbn [run_updaters];
    [exists w; repeat split|].
  destruct (String.eqb _ _); [|exact (IH _ _)].
  unfold sm_bind at 1, get, sm_get. cbn [fst snd].
  destruct (Updater.apply u (store w) (payload a) (blockInfo b)) as [st' nv].
  unfold sm_bind at 1, put at 1, sm_modify at 1. cbn [fst snd].
  destruct nv as [v|]; [|exact (IH _ _)].
  destruct (String.eqb v ""); [exact (IH _ _)|].
  unfold sm_bind at 1. cbn [fst snd].
  destruct (handlerVersionMap _ !! v); [|exact (IH _ _)].
  unfold updateIndexState, sm_bind, put, sm_modify. cbn. eexists. repeat split.
Qed.

Lemma apply_action_frame (binder : Binder St) (b : Block) (isReplay : bool) (x : Action)
    (w : World St) : exists r w1,
  apply_action binder b isReplay x w = (r, w1)
  /\ lastProcessedBlockNumber (hs w1) = lastProcessedBlockNumber (hs w)
  /\ lastProcessedBlockHash (hs w1) = lastProcessedBlockHash (hs w)
  /\ handlerVersionMap (hs w1) = handlerVersionMap (hs w).
Proof.
  unfold apply_action, sm_bind, get, sm_get. cbn [fst snd].
  destruct (_ !! _) as [hv|].
  - destruct (run_updaters_frame binder b isReplay x (updaters hv) 0 w) as [w' [E' H]].
    rewrite E'. eexists _, _. split; [reflexivity | exact H].
  - unfold sm_throw. eexists _, _. split; [reflexivity | repeat split].
Qed.

Lemma apply_actions_frame (binder : Binder St) (b : Block) (isReplay : bool) :
  forall (acts : list Action) (w : World St), exists r w',
  apply_actions binder b isReplay acts w = (r, w')
  /\ lastProcessedBlockNumber (hs w') = lastProcessedBlockNumber (hs w)
  /\ lastProcessedBlockHash (hs w') = lastProcessedBlockHash (hs w)
  /\ handlerVersionMap (hs w') = handlerVersionMap (hs w).
Proof.
  induction acts as [|x l IH]; intros w; cbn [apply_actions].
  { eexists _, _. split; [reflexivity | repeat split]. }
  destruct (apply_action_frame binder b isReplay x w) as [r1 [w1 [E1 [Ha1 [Hb1 Hc1]]]]].
  unfold sm_bind at 1. rewrite E1. destruct r1 as [[]|e].
  2:{ eexists _, _. split; [reflexivity | repeat split; assumption]. }
  unfold sm_bind at 1, get, sm_get. cbn [fst snd].
  destruct (IH w1) as [r2 [w2 [E2 [Ha2 [Hb2 Hc2]]]]].
  unfold sm_bind. rewrite E2. destruct r2 as [va|e];
    (eexists _, _; split; [reflexivity | repeat split; congruence]).
Qed.

Lemma apply_actions_ok (binder : Binder St) (b : Block) (isReplay : bool)
    (m : gmap string (HandlerVersion St)) :
  forall (acts : list Action) (w : World St), version_inv m (hs w) ->
  exists va, fst (apply_actions binder b isReplay acts w) = Ok va.
Proof.
  induction acts as [|x l IH]; intros w Hw; cbn [apply_actions]; [eexists; reflexivity|].
  assert (H1 : exists w1, apply_action binder b isReplay x w = (Ok tt, w1)
                          /\ version_inv m (hs w1)).
  { unfold apply_action, sm_bind, get, sm_get. cbn [fst snd].
    destruct Hw as [Hm [hv Hhv]]. rewrite Hm, Hhv.
    pose proof (run_updaters_inv binder b isReplay x m (updaters hv) 0 w
                  (conj Hm (ex_intro _ hv Hhv))) as Hinv.
    destruct (run_updaters_frame binder b isReplay x (updaters hv) 0 w) as [w' [E _]].
    rewrite E in Hinv |- *. exists w'. split; [reflexivity | exact Hinv]. }
  destruct H1 as [w1 [E1 H1]].
  unfold sm_bind at 1. rewrite E1.
  unfold sm_bind at 1, get, sm_get. cbn [fst snd].
  unfold sm_bind at 1. destruct (IH w1 H1) as [va Hva].
  destruct (apply_actions binder b isReplay l w1) as [r2 w2]; cbn in Hva; subst r2.
  eexists; reflexivity.
Qed.

(** [applyUpdaters] does not move the cursor nor change the version map,
    whether it returns or throws; and on a block with actions, an active
    version name that is not registered makes it throw a [TypeError]
    ([this.handlerVersionMap[name]] is [undefined]) before any call. *)
Theorem applyUpdaters_frame (binder : Binder St) (b : Block) (isReplay : bool)
    (w : World St) :
  (let w' := snd (applyUpdaters binder b isReplay w) in
   lastProcessedBlockNumber (hs w') = lastProcessedBlockNumber (hs w)
   /\ lastProcessedBlockHash (hs w') = lastProcessedBlockHash (hs w)
   /\ handlerVersionMap (hs w') = handlerVersionMap (hs w))
  /\ (~ version_registered (hs w) -> actions b <> [] ->
      applyUpdaters binder b isReplay w = (Err TypeError, w)).
Proof.
  split.
  - cbv zeta. unfold applyUpdaters.
    destruct (apply_actions_frame binder b isReplay (actions b) w) as [r [w' [E [H1 [H2 H3]]]]].
    rewrite E. cbn [snd]. split; [exact H1|]. split; [exact H2|]. exact H3.
  - intros Hnr Hne. unfold applyUpdaters.
    destruct (actions b) as [|x l]; [contradiction|].
    cbn [apply_actions]. unfold sm_bind at 1, apply_action, sm_bind at 1, get, sm_get.
    cbn [fst snd].
    destruct (handlerVersionMap (hs w) !! handlerVersionName (hs w)) as [hv|] eqn:Ehv.
    + exfalso. apply Hnr. unfold version_registered. rewrite Ehv. eexists; reflexivity.
    + reflexivity.
Qed.

Lemma run_effect_list_store (b : Block) (name : string) (a : Action) (effs : list Effect.t) :
  forall idx (w : World St), store (snd (run_effect_list b name a effs idx w)) = store w.
Proof.
  induction effs as [|e effs IH]; intros idx w; cbn [run_effect_list]; [reflexivity|].
  destruct (String.eqb _ _); unfold sm_bind at 1, put, sm_modify, sm_ret; cbn [fst snd];
    rewrite IH; reflexivity.
Qed.

Lemma runEffects_ok_iff (b : Block) :
  forall (va : list (Action * string)) (w : World St),
  (fst (runEffects va b w) = Ok tt
   <-> Forall (fun p => is_Some (handlerVersionMap (hs w) !! snd p)) va)
  /\ hs (snd (runEffects va b w)) = hs w
  /\ store (snd (runEffects va b w)) = store w.
Proof.
  induction va as [|[a name] va IH]; intros w.
  - split; [split; [intros _; constructor | reflexivity]|]. split; reflexivity.
  - assert (E : runEffects ((a, name) :: va) b w =
                sm_bind (match handlerVersionMap (hs w) !! name with
                         | Some hv => run_effect_list b name a (effects hv) 0
                         | None => sm_throw TypeError
                         end) (fun _ => runEffects va b) w) by reflexivity.
    rewrite E; clear E. rewrite Forall_cons. cbn [snd].
    destruct (handlerVersionMap (hs w) !! name) as [hv|] eqn:Ehv.
    + unfold sm_bind.
      destruct (run_effect_list_effects b name a (effects hv) 0 w) as [Hok [_ Hh]].
      pose proof (run_effect_list_store b name a (effects hv) 0 w) as Hs.
      destruct (run_effect_list b name a (effects hv) 0 w) as [r w1].
      cbn in Hok, Hh, Hs. subst r. cbn -[lookup runEffects].
      destruct (IH w1) as [Hi [Hh' Hs']]. rewrite Hh in Hi. rewrite Hi.
      split; [|split; congruence].
      split; [intros H; split; [eexists; reflexivity | exact H] | intros [_ H]; exact H].
    + unfold sm_bind, sm_throw. cbn. split; [|split; reflexivity].
      split; [discriminate | intros [[x Hx] _]; discriminate Hx].
Qed.

(** [runEffects] never writes a field of the handler, whether it returns
    or throws.  When it returns, every versioned action named a registered
    version (an unknown name makes it throw), and it called, for each
    versioned action in order, every effect of that version whose
    [actionType] matches, in array order. *)
Theorem runEffects_pure (b : Block) (va : list (Action * string)) (w : World St) :
  hs (snd (runEffects va b w)) = hs w
  /\ (forall w', runEffects va b w = (Ok tt, w') ->
      Forall (fun p => is_Some (handlerVersionMap (hs w) !! snd p)) va
      /\ events w' = events w ++ effect_runs (handlerVersionMap (hs w)) va b).
Proof.
  split; [exact (proj2 (runEffects_effects b va w))|].
  intros w' H.
  assert (Hall : Forall (fun p => is_Some (handlerVersionMap (hs w) !! snd p)) va).
  { apply (proj1 (runEffects_ok_iff b va w)). rewrite H. reflexivity. }
  split; [exact Hall|].
  rewrite (runEffects_exact b va w Hall) in H. injection H as <-. reflexivity.
Qed.


Lemma grow_weaken (p q : Event -> bool) (w w' : World St) :
  (forall e, p e = true -> q e = true) -> events_grow_by p w w' -> events_grow_by q w w'.
Proof.
  intros Hpq [l [E F]]. exists l. split; [exact E|].
  eapply Forall_impl; [exact F|]. exact Hpq.
Qed.

Lemma grow_bind {A B} (p : Event -> bool) (m : SM (World St) A) (k : A -> SM (World St) B)
    (w : World St) :
  events_grow_by p w (snd (m w)) ->
  (forall a w', m w = (Ok a, w') -> events_grow_by p w' (snd (k a w'))) ->
  events_grow_by p w (snd (sm_bind m k w)).
Proof.
  intros H1 H2. rewrite sm_bind_snd.
  destruct (m w) as [[a|e] w'] eqn:E; cbn in *; [|exact H1].
  eapply grow_trans; [exact H1 | exact (H2 a w' eq_refl)].
Qed.

Lemma refreshIndexState_events (binder : Binder St) (w : World St) :
  events (snd (refreshIndexState binder w)) = events w ++ [EvLoadIndexState].
Proof. reflexivity. Qed.

Lemma handleActions_grow (binder : Binder St) (b : Block) (isReplay : bool) (w : World St) :
  events_grow_by (fun e => negb isReplay || not_effect_event e) w
    (snd (handleActions binder b isReplay w)).
Proof.
  unfold handleActions. apply grow_bind.
  { eapply grow_weaken; [|apply applyUpdaters_no_effects].
    intros e He. rewrite He. apply orb_true_r. }
  intros va w1 _. apply grow_bind.
  { destruct isReplay; cbn [negb].
    - apply grow_refl.
    - eapply grow_weaken; [|apply (proj1 (runEffects_effects b va w1))]. reflexivity. }
  intros [] w2 _. unfold sm_bind, get, sm_get, updateIndexState, put, sm_modify. cbn.
  exists [EvUpdateIndexState (blockNumber (blockInfo b)) isReplay (handlerVersionName (hs w2))].
  split; [reflexivity|]. repeat constructor. cbn. apply orb_true_r.
Qed.

Lemma handleBlock_grow (binder : Binder St) (b : Block) (isFirstBlock isReplay : bool)
    (w1 : World St) :
  events_grow_by (fun e => negb isReplay || not_effect_event e) w1
    (snd (handleBlock_body binder b isFirstBlock isReplay w1)).
Proof.
  unfold handleBlock_body, sm_bind at 1, get, sm_get. cbv zeta. cbn [fst snd].
  destruct (_ && _); [apply grow_refl|].
  destruct (_ && _); [apply grow_refl|].
  destruct (_ && _); [apply grow_refl|].
  destruct (_ && _); [apply grow_refl|].
  unfold handleWithState. apply grow_bind.
  - apply grow_bind.
    + cbn. exists [EvHandleWithState]. split; [reflexivity|].
      repeat constructor. cbn. apply orb_true_r.
    + intros [] w2 _. apply handleActions_grow.
  - intros [] w3 _. apply grow_refl.
Qed.

Lemma handleActions_ok (binder : Binder St) (b : Block) (isReplay : bool) (w w' : World St) :
  handleActions binder b isReplay w = (Ok tt, w') ->
  lastProcessedBlockNumber (hs w') = blockNumber (blockInfo b)
  /\ lastProcessedBlockHash (hs w') = blockHash (blockInfo b)
  /\ exists w2, events w' = events w2 ++ [EvUpdateIndexState (blockNumber (blockInfo b)) isReplay
                                                            (handlerVersionName (hs w'))]
               /\ store w' = updateIndexState_impl binder (store w2) b isReplay
                                                    (handlerVersionName (hs w')).
Proof.
  unfold handleActions. unfold sm_bind at 1.
  destruct (applyUpdaters binder b isReplay w) as [[va|e] w1]; [|discriminate].
  unfold sm_bind at 1.
  destruct ((if negb isReplay then runEffects va b else sm_ret tt) w1) as [[[]|e] w2];
    [|discriminate].
  unfold sm_bind, get, sm_get, updateIndexState, put, sm_modify. cbn.
  intros H. injection H as <-. cbn.
  split; [reflexivity|]. split; [reflexivity|]. exists w2. split; reflexivity.
Qed.

(** After [handleActions] returns, the persisted index state agrees with
    the handler's in-memory cursor and version, for a binder whose
    [loadIndexState] reads back what [updateIndexState] last wrote. *)
Theorem handleActions_persisted_round_trip (binder : Binder St) (b : Block) (isReplay : bool)
    (w w' : World St) :
  (forall st blk r v, loadIndexState_impl binder (updateIndexState_impl binder st blk r v)
                      = mkIndexState (blockNumber (blockInfo blk)) (blockHash (blockInfo blk)) v) ->
  handleActions binder b isReplay w = (Ok tt, w') ->
  loadIndexState_impl binder (store w')
    = mkIndexState (lastProcessedBlockNumber (hs w')) (lastProcessedBlockHash (hs w'))
                   (handlerVersionName (hs w')).
Proof.
  intros Hlaw H. destruct (handleActions_ok binder b isReplay w w' H) as [Hn [Hh [w2 [_ Hs]]]].
  rewrite Hs, Hlaw, Hn, Hh. reflexivity.
Qed.

(** When [handleBlock] answers [(false, 0)] the handler's cursor is the
    block it was given: either the block was already the cursor, or it was
    applied and the cursor moved to it. *)
Theorem handleBlock_done_cursor (binder : Binder St) (b : Block)
    (isRollback isFirstBlock isReplay : bool) (w w' : World St) :
  handleBlock binder b isRollback isFirstBlock isReplay w = (Ok (false, 0), w') ->
  lastProcessedBlockNumber (hs w') = blockNumber (blockInfo b)
  /\ lastProcessedBlockHash (hs w') = blockHash (blockInfo b).
Proof.
  unfold handleBlock. unfold sm_bind at 1.
  destruct (handleBlock_prelude binder b isRollback isFirstBlock isReplay w) as [[[]|e] w1];
    [|discriminate].
  unfold handleBlock_body, sm_bind at 1, get, sm_get. cbv zeta. cbn [fst snd].
  destruct ((blockNumber (blockInfo b) =? lastProcessedBlockNumber (hs w1))
            && String.eqb (blockHash (blockInfo b)) (lastProcessedBlockHash (hs w1))) eqn:Eskip.
  { intros H. injection H as <-. apply andb_true_iff in Eskip as [E1 E2].
    apply Z.eqb_eq in E1. apply String.eqb_eq in E2. split; symmetry; assumption. }
  destruct (isFirstBlock && _); [discriminate|].
  destruct (negb isFirstBlock && negb (_ =? _)); [discriminate|].
  destruct (negb isFirstBlock && _); [discriminate|].
  unfold handleWithState, sm_bind, put, sm_modify, sm_ret. cbv beta iota.
  destruct (handleActions binder b isReplay (log EvHandleWithState w1)) as [[[]|e] w2] eqn:E;
    [|discriminate].
  intros H. injection H as <-.
  destruct (handleActions_ok _ _ _ _ _ E) as [Hn [Hh _]]. split; assumption.
Qed.

(** When [handleBlock] answers [(true, n)] (seek), [n] is the block after
    the cursor, and nothing beyond the rollback or first-load step was
    done: no updater, effect or index write. *)
Theorem handleBlock_seek_answer (binder : Binder St) (b : Block)
    (isRollback isFirstBlock isReplay : bool) (w w' : World St) (n : Z) :
  handleBlock binder b isRollback isFirstBlock isReplay w = (Ok (true, n), w') ->
  handleBlock_prelude binder b isRollback isFirstBlock isReplay w = (Ok tt, w')
  /\ n = lastProcessedBlockNumber (hs w') + 1.
Proof.
  unfold handleBlock. unfold sm_bind at 1.
  destruct (handleBlock_prelude binder b isRollback isFirstBlock isReplay w) as [[[]|e] w1];
    [|discriminate].
  unfold handleBlock_body, sm_bind at 1, get, sm_get. cbv zeta. cbn [fst snd].
  destruct (_ && _); [discriminate|].
  destruct (_ && _); [intros H; injection H as <- <-; split; reflexivity|].
  destruct (_ && _); [intros H; injection H as <- <-; split; reflexivity|].
  destruct (_ && _); [discriminate|].
  unfold handleWithState, sm_bind, put, sm_modify, sm_ret. cbv beta iota.
  destruct (handleActions binder b isReplay (log EvHandleWithState w1)) as [[[]|e] w2];
    discriminate.
Qed.

(** A first block that is not the cursor itself, handed to a handler that
    has already processed blocks (its cursor hash is not empty once the
    rollback or first-load step ran), is answered with a seek to the
    block after the cursor, with no further call. *)
Theorem handleBlock_first_block_seek (binder : Binder St) (b : Block)
    (isRollback isReplay : bool) (w w1 : World St) :
  handleBlock_prelude binder b isRollback true isReplay w = (Ok tt, w1) ->
  ~ (blockNumber (blockInfo b) = lastProcessedBlockNumber (hs w1)
     /\ blockHash (blockInfo b) = lastProcessedBlockHash (hs w1)) ->
  lastProcessedBlockHash (hs w1) <> ""%string ->
  handleBlock binder b isRollback true isReplay w
    = (Ok (true, lastProcessedBlockNumber (hs w1) + 1), w1).
Proof.
  intros Hpre Hnot Hne. unfold handleBlock, sm_bind at 1. rewrite Hpre.
  unfold handleBlock_body, sm_bind, get, sm_get, sm_ret. cbv zeta. cbn [fst snd andb negb].
  replace ((blockNumber (blockInfo b) =? lastProcessedBlockNumber (hs w1))
           && String.eqb (blockHash (blockInfo b)) (lastProcessedBlockHash (hs w1))) with false.
  2:{ symmetry. apply andb_false_iff.
      destruct (Z.eqb_spec (blockNumber (blockInfo b)) (lastProcessedBlockNumber (hs w1)));
        [|left; reflexivity].
      right. apply String.eqb_neq. intros E. apply Hnot. split; assumption. }
  apply String.eqb_neq in Hne. rewrite Hne. reflexivity.
Qed.

(** In replay mode [handleBlock] never runs an effect: every call it
    issues is a rollback, an index load or write, the state acquisition
    or an updater. *)
Theorem handleBlock_replay_no_effects (binder : Binder St) (b : Block)
    (isRollback isFirstBlock : bool) (w : World St) :
  events_grow_by not_effect_event w (snd (handleBlock binder b isRollback isFirstBlock true w)).
Proof.
  unfold handleBlock. apply grow_bind.
  - unfold handleBlock_prelude. destruct (isRollback || true && isFirstBlock).
    + exists [EvRollbackTo (blockNumber (blockInfo b) - 1); EvLoadIndexState].
      split; [|repeat constructor].
      unfold sm_bind at 1, rollbackTo, put, sm_modify. cbn [fst snd].
      rewrite refreshIndexState_events. cbn [events log set_store]. rewrite <- app_assoc. reflexivity.
    + unfold sm_bind at 1, get, sm_get. cbn [fst snd].
      destruct (_ && _); [|apply grow_refl].
      exists [EvLoadIndexState]. split; [apply refreshIndexState_events | repeat constructor].
  - intros [] w1 _. apply (handleBlock_grow binder b isFirstBlock true w1).
Qed.

(** [handleBlock] calls [rollbackTo(blockNumber - 1)] and then
    [loadIndexState] before anything else when it rolls back, and calls
    [loadIndexState] first when its cursor is the initial (0, ""). *)
Theorem handleBlock_loads_first (binder : Binder St) (b : Block)
    (isRollback isFirstBlock isReplay : bool) (w : World St) :
  (isRollback || isReplay && isFirstBlock = true ->
   exists l, events (snd (handleBlock binder b isRollback isFirstBlock isReplay w))
             = events w ++ [EvRollbackTo (blockNumber (blockInfo b) - 1); EvLoadIndexState] ++ l)
  /\ (isRollback || isReplay && isFirstBlock = false ->
      lastProcessedBlockNumber (hs w) = 0 -> lastProcessedBlockHash (hs w) = ""%string ->
      exists l, events (snd (handleBlock binder b isRollback isFirstBlock isReplay w))
                = events w ++ [EvLoadIndexState] ++ l).
Proof.
  unfold handleBlock. split.
  - intros Hr. rewrite sm_bind_snd. unfold handleBlock_prelude. rewrite Hr.
    unfold sm_bind at 1, rollbackTo, put, sm_modify. cbn [fst snd].
    destruct (refreshIndexState binder _) as [[[]|e] w1] eqn:E.
    + destruct (handleBlock_grow binder b isFirstBlock isReplay w1) as [l [El _]].
      exists l. cbn [snd]. rewrite El.
      pose proof (f_equal (fun p => events (snd p)) E) as Ev. cbn [snd] in Ev.
      rewrite refreshIndexState_events in Ev. rewrite <- Ev. cbn. rewrite <- !app_assoc. reflexivity.
    + exists []. pose proof (f_equal (fun p => events (snd p)) E) as Ev. cbn [snd] in Ev |- *.
      rewrite refreshIndexState_events in Ev. rewrite <- Ev. cbn. rewrite <- !app_assoc. reflexivity.
  - intros Hr Hn Hh. rewrite sm_bind_snd. unfold handleBlock_prelude. rewrite Hr.
    unfold sm_bind at 1, get, sm_get. cbn [fst snd]. rewrite Hn, Hh. cbn [Z.eqb String.eqb andb].
    destruct (refreshIndexState binder w) as [[[]|e] w1] eqn:E.
    + destruct (handleBlock_grow binder b isFirstBlock isReplay w1) as [l [El _]].
      exists l. cbn [snd]. rewrite El.
      pose proof (f_equal (fun p => events (snd p)) E) as Ev. cbn [snd] in Ev.
      rewrite refreshIndexState_events in Ev. rewrite <- Ev. rewrite <- !app_assoc. reflexivity.
    + exists []. pose proof (f_equal (fun p => events (snd p)) E) as Ev. cbn [snd] in Ev |- *.
      rewrite refreshIndexState_events in Ev. rewrite <- Ev. rewrite app_nil_r. reflexivity.
Qed.

Lemma handleActions_map (binder : Binder St) (b : Block) (isReplay : bool) (w : World St) :
  handlerVersionMap (hs (snd (handleActions binder b isReplay w))) = handlerVersionMap (hs w).
Proof.
  unfold handleActions.
  apply (bind_pres (fun w' => handlerVersionMap (hs w') = handlerVersionMap (hs w))).
  { destruct (apply_actions_frame binder b isReplay (actions b) w) as [r [w' [E [_ [_ H]]]]].
    unfold applyUpdaters. rewrite E. exact H. }
  intros va w1 _ H1.
  apply (bind_pres (fun w' => handlerVersionMap (hs w') = handlerVersionMap (hs w))).
  { destruct (negb isReplay); [|exact H1]. rewrite (proj2 (runEffects_effects b va w1)). exact H1. }
  intros [] w2 _ H2. unfold sm_bind, get, sm_get, updateIndexState, put, sm_modify. cbn.
  exact H2.
Qed.

(** [handleBlock] never changes the map of registered versions, whether it
    returns or throws. *)
Theorem handleBlock_keeps_versions (binder : Binder St) (b : Block)
    (isRollback isFirstBlock isReplay : bool) (w : World St) :
  handlerVersionMap (hs (snd (handleBlock binder b isRollback isFirstBlock isReplay w)))
  = handlerVersionMap (hs w).
Proof.
  unfold handleBlock.
  apply (bind_pres (fun w' => handlerVersionMap (hs w') = handlerVersionMap (hs w))).
  - unfold handleBlock_prelude. destruct (isRollback || isReplay && isFirstBlock); [reflexivity|].
    unfold sm_bind at 1, get, sm_get. cbn [fst snd].
    destruct (_ && _); reflexivity.
  - intros [] w1 _ H1.
    unfold handleBlock_body, sm_bind at 1, get, sm_get. cbv zeta. cbn [fst snd].
    destruct (_ && _); [exact H1|].
    destruct (_ && _); [exact H1|].
    destruct (_ && _); [exact H1|].
    destruct (_ && _); [exact H1|].
    unfold handleWithState.
    apply (bind_pres (fun w' => handlerVersionMap (hs w') = handlerVersionMap (hs w))).
    + apply (bind_pres (fun w' => handlerVersionMap (hs w') = handlerVersionMap (hs w))); [exact H1|].
      intros [] w2 _ H2. rewrite handleActions_map. exact H2.
    + intros [] w3 _ H3. exact H3.
Qed.

End Extra.



Lemma constructor_default_version_witness :
  exists h, constructor (plain_version "v0" :: [v1_switching_to "v2"]) = Ok h /\
  (("v1"%string ∈ map versionName (plain_version "v0" :: [v1_switching_to "v2"])
    -> handlerVersionName h = "v1"%string)
   /\ ("v1"%string ∉ map versionName (plain_version "v0" :: [v1_switching_to "v2"])
       -> handlerVersionName h = versionName (plain_version "v0"))).
Proof.
  eexists. split; [reflexivity|].
  apply (constructor_default_version (plain_version "v0") [v1_switching_to "v2"]). reflexivity.
Defined.

Lemma applyUpdaters_frame_witness :
  let w := {| hs := set_handlerVersionName "v9" (hs (handler_at "v2" "v2" 5));
              store := store (handler_at "v2" "v2" 5); events := [] |} in
  ~ version_registered (hs w) /\ actions (switch_block 6) <> [] /\
  applyUpdaters cursor_binder (switch_block 6) false w = (Err TypeError, w).
Proof.
  cbv zeta.
  assert (Hnr : ~ version_registered
                    (hs {| hs := set_handlerVersionName "v9" (hs (handler_at "v2" "v2" 5));
                           store := store (handler_at "v2" "v2" 5); events := [] |}))
    by (unfold version_registered; vm_compute; intros [x Hx]; discriminate Hx).
  split; [exact Hnr|]. split; [discriminate|].
  apply (proj2 (applyUpdaters_frame cursor_binder (switch_block 6) false _)); [exact Hnr | discriminate].
Defined.

Lemma runEffects_pure_witness :
  let va := [(mkAction "switch" "p", "v2"%string); (mkAction "switch" "q", "v1"%string)] in
  let w := handler_at "v2" "v2" 5 in
  exists w', runEffects va (switch_block 6) w = (Ok tt, w') /\
  (Forall (fun p => is_Some (handlerVersionMap (hs w) !! snd p)) va
   /\ events w' = events w ++ effect_runs (handlerVersionMap (hs w)) va (switch_block 6)).
Proof.
  cbv zeta.
  exists (snd (runEffects [(mkAction "switch" "p", "v2"%string); (mkAction "switch" "q", "v1"%string)]
                 (switch_block 6) (handler_at "v2" "v2" 5))).
  split; [vm_compute; reflexivity|].
  apply (proj2 (runEffects_pure (switch_block 6)
                  [(mkAction "switch" "p", "v2"%string); (mkAction "switch" "q", "v1"%string)]
                  (handler_at "v2" "v2" 5))).
  vm_compute; reflexivity.
Defined.

Lemma handleActions_persisted_round_trip_witness :
  (forall st blk r v, loadIndexState_impl cursor_binder (updateIndexState_impl cursor_binder st blk r v)
                      = mkIndexState (blockNumber (blockInfo blk)) (blockHash (blockInfo blk)) v) /\
  exists w', handleActions cursor_binder (switch_block 6) false (handler_at "v2" "v2" 5) = (Ok tt, w') /\
  loadIndexState_impl cursor_binder (store w')
    = mkIndexState (lastProcessedBlockNumber (hs w')) (lastProcessedBlockHash (hs w'))
                   (handlerVersionName (hs w')).
Proof.
  assert (Hlaw : forall st blk r v,
             loadIndexState_impl cursor_binder (updateIndexState_impl cursor_binder st blk r v)
             = mkIndexState (blockNumber (blockInfo blk)) (blockHash (blockInfo blk)) v)
    by (intros; reflexivity).
  split; [exact Hlaw|]. eexists. split; [reflexivity|].
  apply (handleActions_persisted_round_trip cursor_binder (switch_block 6) false
           (handler_at "v2" "v2" 5) _ Hlaw). reflexivity.
Defined.

Lemma handleBlock_done_cursor_witness :
  exists w', handleBlock cursor_binder (switch_block 6) false false false (handler_at "v2" "v2" 5)
             = (Ok (false, 0), w') /\
  lastProcessedBlockNumber (hs w') = blockNumber (blockInfo (switch_block 6))
  /\ lastProcessedBlockHash (hs w') = blockHash (blockInfo (switch_block 6)).
Proof.
  exists (snd (handleBlock cursor_binder (switch_block 6) false false false (handler_at "v2" "v2" 5))).
  split; [vm_compute; reflexivity|].
  apply (handleBlock_done_cursor cursor_binder (switch_block 6) false false false
           (handler_at "v2" "v2" 5)). vm_compute; reflexivity.
Defined.

Lemma handleBlock_seek_answer_witness :
  exists w', handleBlock cursor_binder (linear_block 7) false false false (handler_at "v2" "v2" 5)
             = (Ok (true, 6), w') /\
  handleBlock_prelude cursor_binder (linear_block 7) false false false (handler_at "v2" "v2" 5)
    = (Ok tt, w')
  /\ 6 = lastProcessedBlockNumber (hs w') + 1.
Proof.
  exists (snd (handleBlock cursor_binder (linear_block 7) false false false (handler_at "v2" "v2" 5))).
  split; [vm_compute; reflexivity|].
  apply (handleBlock_seek_answer cursor_binder (linear_block 7) false false false
           (handler_at "v2" "v2" 5)). vm_compute; reflexivity.
Defined.

Lemma handleBlock_first_block_seek_witness :
  let w := handler_at "v2" "v2" 5 in
  handleBlock_prelude cursor_binder (linear_block 9) false true false w = (Ok tt, w) /\
  ~ (blockNumber (blockInfo (linear_block 9)) = lastProcessedBlockNumber (hs w)
     /\ blockHash (blockInfo (linear_block 9)) = lastProcessedBlockHash (hs w)) /\
  lastProcessedBlockHash (hs w) <> ""%string /\
  handleBlock cursor_binder (linear_block 9) false true false w
    = (Ok (true, lastProcessedBlockNumber (hs w) + 1), w).
Proof.
  cbn zeta.
  assert (Hn : ~ (blockNumber (blockInfo (linear_block 9))
                    = lastProcessedBlockNumber (hs (handler_at "v2" "v2" 5))
                  /\ blockHash (blockInfo (linear_block 9))
                    = lastProcessedBlockHash (hs (handler_at "v2" "v2" 5))))
    by (cbn; intros [E _]; discriminate E).
  assert (Hh : lastProcessedBlockHash (hs (handler_at "v2" "v2" 5)) <> ""%string)
    by (cbn; discriminate).
  split; [reflexivity|]. split; [exact Hn|]. split; [exact Hh|].
  apply handleBlock_first_block_seek; [reflexivity | exact Hn | exact Hh].
Defined.

Lemma handleBlock_loads_first_witness :
  (true || false && false = true) /\
  exists l, events (snd (handleBlock cursor_binder (switch_block 6) true false false
                           (handler_at "v2" "v2" 5)))
            = events (handler_at "v2" "v2" 5)
              ++ [EvRollbackTo (blockNumber (blockInfo (switch_block 6)) - 1); EvLoadIndexState] ++ l.
Proof.
  split; [reflexivity|].
  apply (proj1 (handleBlock_loads_first cursor_binder (switch_block 6) true false false
                  (handler_at "v2" "v2" 5))). reflexivity.
Defined.

End HandlerExtra.
